(** * A shallow embedding of [runpod-worker-wan/handler.py]

    The handler is a sequential pipeline that drives a ComfyUI server:
    validate the job input, wait for the server, upload the input images,
    queue the workflow, wait on the websocket for the end of the job and
    collect the outputs.  The Python functions are embedded as Rocq
    functions over a small model of the Python values they handle; the
    server, the websocket and the library calls whose result the code only
    passes on are oracles of a [world] record. *)

From Stdlib Require Import ZArith List Strings.String Strings.Ascii Strings.Byte Bool Lia.
From Stdlib Require Import DecimalString.
Import ListNotations.
#[local] Set Warnings "-register-all".
Local Open Scope string_scope.
Local Open Scope Z_scope.

(** ** Python values *)

Module Py.

(** The values the handler sees are those of [json.loads] and
    [response.json()].  A [dict] is an association list in insertion order
    (lookup takes the first binding of a key); numbers are restricted to
    integers.  A character of a [str] is a code point below 256. *)
Inductive json : Type :=
| JNull
| JBool (b : bool)
| JNum (n : Z)
| JStr (s : string)
| JList (l : list json)
| JDict (d : list (string * json)).

Definition bytes := list byte.

(** The exception classes the handler raises, catches or lets through. *)
Inductive exn_class : Type :=
| AttributeError
| TypeError
| KeyError
| ValueError
| RuntimeError
| BinasciiError
| JSONDecodeError
| RequestException
| WebSocketTimeoutException
| WebSocketException.

(** An exception with the text [str(exc)] gives. *)
Record exn : Type := Exn { exn_class_of : exn_class; exn_str : string }.

(** A call returns, raises, or never returns ([Hang]: the only loop of the
    handler without a bound is the one of [wait_for_completion]). *)
Inductive result (A : Type) : Type :=
| Ok (a : A)
| Raise (e : exn)
| Hang.
Arguments Ok {A} a.
Arguments Raise {A} e.
Arguments Hang {A}.

Definition bind {A B} (m : result A) (k : A -> result B) : result B :=
  match m with
  | Ok a => k a
  | Raise e => Raise e
  | Hang => Hang
  end.

(** A library call that returns ([inl]) or raises ([inr]). *)
Definition call {A} (r : A + exn) : result A :=
  match r with
  | inl a => Ok a
  | inr e => Raise e
  end.

(** [try: body except Exception as exc: handler exc]. *)
Definition try_except {A} (body : result A) (handler : exn -> result A) : result A :=
  match body with
  | Raise exc => handler exc
  | r => r
  end.

(** A [for] loop that threads the variables it updates and stops at the
    first exception. *)
Fixpoint for_each {A S} (body : S -> A -> result S) (xs : list A) (s : S) : result S :=
  match xs with
  | [] => Ok s
  | x :: r =>
      match body s x with
      | Ok s' => for_each body r s'
      | Raise e => Raise e
      | Hang => Hang
      end
  end.

Notation "x <- m ;; k" := (bind m (fun x => k))
  (at level 61, m at next level, right associativity).

(** [lookup k d]: the first binding of [k]. *)
Fixpoint lookup (k : string) (d : list (string * json)) : option json :=
  match d with
  | [] => None
  | (k', v) :: r => if String.eqb k k' then Some v else lookup k r
  end.

(** [d.get(k, default)] on a dict. *)
Definition dict_get (d : list (string * json)) (k : string) (default : json) : json :=
  match lookup k d with
  | Some v => v
  | None => default
  end.

(** [k in d] on a dict. *)
Definition dict_mem (k : string) (d : list (string * json)) : bool :=
  match lookup k d with
  | Some _ => true
  | None => false
  end.

(** [type(v).__name__]. *)
Definition type_name (v : json) : string :=
  match v with
  | JNull => "NoneType"
  | JBool _ => "bool"
  | JNum _ => "int"
  | JStr _ => "str"
  | JList _ => "list"
  | JDict _ => "dict"
  end.

Definition no_attribute (v : json) (attr : string) : exn :=
  Exn AttributeError ("'" ++ type_name v ++ "' object has no attribute '" ++ attr ++ "'").

(** [v.get(k, default)]: only a dict has the method. *)
Definition get (v : json) (k : string) (default : json) : result json :=
  match v with
  | JDict d => Ok (dict_get d k default)
  | _ => Raise (no_attribute v "get")
  end.

(** [v.values()]. *)
Definition values (v : json) : result (list json) :=
  match v with
  | JDict d => Ok (map snd d)
  | _ => Raise (no_attribute v "values")
  end.

(** [v[k]] for a string [k]. *)
Definition getitem (v : json) (k : string) : result json :=
  match v with
  | JDict d =>
      match lookup k d with
      | Some x => Ok x
      | None => Raise (Exn KeyError ("'" ++ k ++ "'"))
      end
  | JStr _ => Raise (Exn TypeError "string indices must be integers")
  | JList _ => Raise (Exn TypeError "list indices must be integers or slices, not str")
  | _ => Raise (Exn TypeError ("'" ++ type_name v ++ "' object is not subscriptable"))
  end.

(** The elements a [for] loop over [v] visits. *)
Definition iter (v : json) : result (list json) :=
  match v with
  | JList l => Ok l
  | JDict d => Ok (map (fun kv => JStr (fst kv)) d)
  | JStr s => Ok (map (fun c => JStr (String c EmptyString)) (list_ascii_of_string s))
  | _ => Raise (Exn TypeError ("'" ++ type_name v ++ "' object is not iterable"))
  end.

(** Truth value of [v] ([if v], [not v], [v or w]). *)
Definition truthy (v : json) : bool :=
  match v with
  | JNull => false
  | JBool b => b
  | JNum n => negb (n =? 0)
  | JStr s => negb (String.eqb s "")
  | JList l => match l with [] => false | _ => true end
  | JDict d => match d with [] => false | _ => true end
  end.

(** [v is None]. *)
Definition is_none (v : json) : bool :=
  match v with
  | JNull => true
  | _ => false
  end.

(** [a == b]: [True == 1] and [False == 0]; lists are compared element by
    element and dicts binding by binding, whatever their order. *)
Fixpoint py_eq (a b : json) {struct a} : bool :=
  match a, b with
  | JNull, JNull => true
  | JBool x, JBool y => Bool.eqb x y
  | JBool x, JNum n => (if x then 1 else 0) =? n
  | JNum n, JBool y => n =? (if y then 1 else 0)
  | JNum n, JNum m => n =? m
  | JStr s, JStr t => String.eqb s t
  | JList l, JList l' =>
      (fix eq_list (xs ys : list json) {struct xs} : bool :=
         match xs, ys with
         | [], [] => true
         | x :: xs', y :: ys' => py_eq x y && eq_list xs' ys'
         | _, _ => false
         end) l l'
  | JDict d, JDict d' =>
      (Nat.eqb (List.length d) (List.length d'))
      && (fix eq_dict (kvs : list (string * json)) {struct kvs} : bool :=
            match kvs with
            | [] => true
            | (k, v) :: r =>
                match lookup k d' with
                | Some w => py_eq v w && eq_dict r
                | None => false
                end
            end) d
  | _, _ => false
  end.

End Py.
Import Py.

(** ** [strip_data_uri] *)

(** [c in data] for a one-character [c]. *)
Fixpoint contains (c : ascii) (data : string) : bool :=
  match data with
  | EmptyString => false
  | String x r => if Ascii.eqb x c then true else contains c r
  end.

(** [data.split(c, 1)]: at most one split, at the first [c]. *)
Fixpoint split1 (c : ascii) (data : string) : list string :=
  match data with
  | EmptyString => [EmptyString]
  | String x r =>
      if Ascii.eqb x c then [EmptyString; r]
      else match split1 c r with
           | h :: t => String x h :: t
           | [] => []
           end
  end.

Definition comma : ascii := ","%char.

Definition strip_data_uri (data : string) : string :=
  if contains comma data then nth 1 (split1 comma data) data
  else data.

(** ** [base64.b64decode] and [base64.b64encode] (CPython's [base64] and
    [binascii] modules, with the default [validate=False]) *)

Module Base64.

Definition byte_of_Z (z : Z) : byte :=
  match Byte.of_N (Z.to_N (z mod 256)) with
  | Some b => b
  | None => x00
  end.

Definition Z_of_byte (b : byte) : Z := Z.of_N (Byte.to_N b).

Definition BASE64_PAD : byte := byte_of_ascii "="%char.

(** [table_a2b_base64]: the 6-bit value of an alphabet character. *)
Definition table_a2b_base64 (ch : byte) : option Z :=
  let n := Z_of_byte ch in
  if (65 <=? n) && (n <=? 90) then Some (n - 65)
  else if (97 <=? n) && (n <=? 122) then Some (n - 71)
  else if (48 <=? n) && (n <=? 57) then Some (n + 4)
  else if n =? 43 then Some 62
  else if n =? 47 then Some 63
  else None.

Definition string_of_Z (z : Z) : string := NilZero.string_of_int (Z.to_int z).

(** The loop of [binascii.a2b_base64] without [strict_mode]: a character
    outside the alphabet is skipped, a complete pad sequence ends the
    decoding, and what is left of a quad at the end of the input is an
    error. *)
Fixpoint a2b_base64_loop (ascii_data : bytes) (quad_pos leftchar pads : Z)
    (bin_data : bytes) : result bytes :=
  match ascii_data with
  | [] =>
      if quad_pos =? 0 then Ok bin_data
      else if quad_pos =? 1 then
        Raise (Exn BinasciiError
                 ("Invalid base64-encoded string: number of data characters ("
                  ++ string_of_Z (Z.of_nat (List.length bin_data) / 3 * 4 + 1)
                  ++ ") cannot be 1 more than a multiple of 4"))
      else Raise (Exn BinasciiError "Incorrect padding")
  | this_ch :: rest =>
      if Byte.eqb this_ch BASE64_PAD then
        if 2 <=? quad_pos then
          if 4 <=? quad_pos + (pads + 1) then Ok bin_data
          else a2b_base64_loop rest quad_pos leftchar (pads + 1) bin_data
        else a2b_base64_loop rest quad_pos leftchar pads bin_data
      else
        match table_a2b_base64 this_ch with
        | None => a2b_base64_loop rest quad_pos leftchar pads bin_data
        | Some v =>
            if quad_pos =? 0 then a2b_base64_loop rest 1 v 0 bin_data
            else if quad_pos =? 1 then
              a2b_base64_loop rest 2 (Z.land v 15) 0
                (bin_data ++ [byte_of_Z (Z.lor (Z.shiftl leftchar 2) (Z.shiftr v 4))])%list
            else if quad_pos =? 2 then
              a2b_base64_loop rest 3 (Z.land v 3) 0
                (bin_data ++ [byte_of_Z (Z.lor (Z.shiftl leftchar 4) (Z.shiftr v 2))])%list
            else
              a2b_base64_loop rest 0 0 0
                (bin_data ++ [byte_of_Z (Z.lor (Z.shiftl leftchar 6) v)])%list
        end
  end.

Definition a2b_base64 (data : bytes) : result bytes :=
  a2b_base64_loop data 0 0 0 [].

Definition is_ascii (c : ascii) : bool := (N_of_ascii c <? 128)%N.

(** [base64.b64decode(s)] for a [str]: [s.encode('ascii')], then
    [binascii.a2b_base64]. *)
Definition b64decode (s : string) : result bytes :=
  if forallb is_ascii (list_ascii_of_string s) then
    a2b_base64 (list_byte_of_string s)
  else Raise (Exn ValueError "string argument should contain only ASCII characters").

Definition table_b2a_base64 : string :=
  "ABCDEFGHIJKLMNOPQRSTUVWXYZabcdefghijklmnopqrstuvwxyz0123456789+/".

Definition b2a (v : Z) : ascii :=
  match String.get (Z.to_nat (Z.land v 63)) table_b2a_base64 with
  | Some c => c
  | None => "="%char
  end.

(** [base64.b64encode(data).decode("utf-8")]. *)
Fixpoint b64encode (data : bytes) : string :=
  match data with
  | [] => ""
  | [a] =>
      let a := Z_of_byte a in
      String (b2a (Z.shiftr a 2)) (String (b2a (Z.shiftl a 4)) "==")
  | [a; b] =>
      let a := Z_of_byte a in
      let b := Z_of_byte b in
      String (b2a (Z.shiftr a 2))
        (String (b2a (Z.lor (Z.shiftl a 4) (Z.shiftr b 4)))
           (String (b2a (Z.shiftl b 2)) "="))
  | a :: b :: c :: r =>
      let a := Z_of_byte a in
      let b := Z_of_byte b in
      let c := Z_of_byte c in
      String (b2a (Z.shiftr a 2))
        (String (b2a (Z.lor (Z.shiftl a 4) (Z.shiftr b 4)))
           (String (b2a (Z.lor (Z.shiftl b 2) (Z.shiftr c 6)))
              (String (b2a c) (b64encode r))))
  end.

End Base64.
Import Base64.

(** ** The world outside the handler *)

(** What [requests] hands back for a request that got an answer. *)
Record response : Type := Response {
  status_code : Z;
  reason : string;
  url : string;
  text : string;
  response_json : json + exn;    (* [response.json()] returns or raises *)
  content : bytes
}.

(** A request is answered or raises a [requests.RequestException] with the
    given text. *)
Inductive http_outcome : Type :=
| Answered (r : response)
| RequestFailed (msg : string).

(** What [requests.post] does with an upload.  The name of the file goes
    into the multipart body as it is, and [requests] builds that body
    before it sends anything: besides answering or failing with a
    [RequestException], the call can raise another exception there (an
    [AttributeError] for a name that is not a [str]), which the [except]
    of [upload_images] does not catch. *)
Inductive upload_outcome : Type :=
| Uploaded (o : http_outcome)
| UploadRaised (e : exn).

(** What one [ws.recv()] yields: a text frame, a binary frame, or an
    exception (a [WebSocketTimeoutException] when nothing came in time). *)
Inductive recv_outcome : Type :=
| RecvText (message : string)
| RecvBinary (message : bytes)
| RecvRaise (e : exn).

(** The process environment, the libraries the code passes values through,
    and the ComfyUI server as the handler observes it. *)
Record world : Type := World {
  COMFY_HOST : string;
  CHECK_RETRIES : Z;
  COMFY_ORG_API_KEY : json;               (* [os.environ.get(...)]: a [str] or [None] *)
  json_loads : string -> json + exn;      (* returns or raises *)
  repr : json -> string;
  uuid4 : string;
  get_root : nat -> http_outcome;         (* the i-th [GET /] *)
  post_upload_image : json -> bytes -> upload_outcome;
  post_prompt : json -> http_outcome;
  ws_connect : string -> option exn;      (* [None]: the handshake succeeded *)
  ws_frames : list recv_outcome;          (* then the stream stays silent *)
  get_history : json -> http_outcome;
  get_view : json -> json -> json -> http_outcome
}.

Definition COMFY_HTTP (w : world) : string := "http://" ++ COMFY_HOST w.

(** [str(v)] and the [{v}] of an f-string. *)
Definition py_str (w : world) (v : json) : string :=
  match v with
  | JStr s => s
  | _ => repr w v
  end.

(** [a or b]. *)
Definition py_or (a b : json) : json := if truthy a then a else b.

(** [response.raise_for_status()]. *)
Definition raise_for_status (r : response) : result unit :=
  if (400 <=? status_code r) && (status_code r <? 500) then
    Raise (Exn RequestException
             (string_of_Z (status_code r) ++ " Client Error: " ++ reason r
              ++ " for url: " ++ url r))
  else if (500 <=? status_code r) && (status_code r <? 600) then
    Raise (Exn RequestException
             (string_of_Z (status_code r) ++ " Server Error: " ++ reason r
              ++ " for url: " ++ url r))
  else Ok tt.

(** A [requests] call outside any [try]. *)
Definition request (o : http_outcome) : result response :=
  match o with
  | Answered r => Ok r
  | RequestFailed msg => Raise (Exn RequestException msg)
  end.

(** ** [validate_input] *)

(** [isinstance(image, dict) and "name" in image and "image" in image]. *)
Definition image_ok (image : json) : bool :=
  match image with
  | JDict d => dict_mem "name" d && dict_mem "image" d
  | _ => false
  end.

(** [isinstance(images, list) and all(... for image in images)]. *)
Definition images_ok (images : json) : bool :=
  match images with
  | JList l => forallb image_ok l
  | _ => false
  end.

(** The pair [(validated, error)], [None] being [JNull]. *)
Definition validate_input (w : world) (job_input : json) : result (json * json) :=
  if is_none job_input then Ok (JNull, JStr "Please provide input")
  else
    let parsed :=
      match job_input with
      | JStr s =>
          match json_loads w s with
          | inr (Exn JSONDecodeError _) => Ok None
          | inl v => Ok (Some v)
          | inr e => Raise e
          end
      | _ => Ok (Some job_input)
      end in
    p <- parsed ;;
    match p with
    | None => Ok (JNull, JStr "Invalid JSON format in input")
    | Some job_input =>
        workflow <- get job_input "workflow" JNull ;;
        if is_none workflow then Ok (JNull, JStr "Missing 'workflow' parameter")
        else
          images <- get job_input "images" JNull ;;
          if negb (is_none images) && negb (images_ok images) then
            Ok (JNull, JStr "'images' must be a list of objects with 'name' and 'image' keys")
          else
            comfy_org_api_key <- get job_input "comfy_org_api_key" JNull ;;
            Ok (JDict [("workflow", workflow);
                       ("images", images);
                       ("comfy_org_api_key", comfy_org_api_key)],
                JNull)
    end.

(** ** [check_server] *)

(** One attempt: [True] when the answer has status 200; an exception of
    [requests] counts as a failed attempt. *)
Definition probe_ok (o : http_outcome) : bool :=
  match o with
  | Answered r => status_code r =? 200
  | RequestFailed _ => false
  end.

(** The loop over [range(CHECK_RETRIES)], [i] requests having been sent;
    the result comes with the number of requests sent in all. *)
Fixpoint check_server_loop (w : world) (retries : nat) (i : nat) : bool * nat :=
  match retries with
  | O => (false, i)
  | S retries' =>
      if probe_ok (get_root w i) then (true, S i)
      else (* time.sleep(CHECK_INTERVAL_MS / 1000) *)
        check_server_loop w retries' (S i)
  end.

Definition check_server_run (w : world) : bool * nat :=
  check_server_loop w (Z.to_nat (CHECK_RETRIES w)) 0.

Definition check_server (w : world) : bool := fst (check_server_run w).

(** ** [upload_images] *)

(** The body of the loop for one image: [None], or the error text the
    function returns with. *)
Definition upload_image (w : world) (image : json) : result (option string) :=
  name <- getitem image "name" ;;
  image_data <- getitem image "image" ;;
  let raw_data := strip_data_uri (py_str w image_data) in
  match b64decode raw_data with
  | Raise exc =>
      Ok (Some ("Failed to decode base64 for " ++ py_str w name ++ ": " ++ exn_str exc))
  | Hang => Hang
  | Ok blob =>
      match post_upload_image w name blob with
      | UploadRaised exc => Raise exc
      | Uploaded (RequestFailed msg) =>
          Ok (Some ("Failed to upload " ++ py_str w name ++ ": " ++ msg))
      | Uploaded (Answered r) =>
          match raise_for_status r with
          | Raise exc => Ok (Some ("Failed to upload " ++ py_str w name ++ ": " ++ exn_str exc))
          | _ => Ok None
          end
      end
  end.

Fixpoint upload_images_loop (w : world) (images : list json) : result json :=
  match images with
  | [] => Ok JNull
  | image :: rest =>
      r <- upload_image w image ;;
      match r with
      | Some error => Ok (JStr error)
      | None => upload_images_loop w rest
      end
  end.

(** [None] ([JNull]) or the error text. *)
Definition upload_images (w : world) (images : json) : result json :=
  if negb (truthy images) then Ok JNull
  else
    l <- iter images ;;
    upload_images_loop w l.

(** ** [queue_workflow] *)

Definition queue_workflow (w : world) (workflow : json) (client_id : string)
    (comfy_org_api_key : json) : result json :=
  let payload := [("prompt", workflow); ("client_id", JStr client_id)] in
  let key := py_or comfy_org_api_key (COMFY_ORG_API_KEY w) in
  let payload :=
    if truthy key then (payload ++ [("extra_data", JDict [("api_key_comfy_org", key)])])%list
    else payload in
  response <- request (post_prompt w (JDict payload)) ;;
  if status_code response =? 400 then
    Raise (Exn ValueError ("Workflow validation failed: " ++ text response))
  else
    _ <- raise_for_status response ;;
    call (response_json response).
(** ** [wait_for_completion] *)

(** Where the wait stands: [Waiting] in the loop, [Completed] at the
    [return], [Failed] at the [raise RuntimeError(...)] of an execution
    error (with the text of the exception), [Aborted] when another
    exception leaves the loop. *)
Inductive watcher_state : Type :=
| Waiting
| Completed
| Failed (message : string)
| Aborted (e : exn).

(** The methods called on the websocket, in order. *)
Inductive ws_call : Type :=
| WsConnect (url : string)
| WsSetTimeout
| WsRecv
| WsClose.

(** The first [if] of the loop body, on a decoded message: does it
    [return]? *)
Definition executing_done (prompt_id data event_type : json) : result bool :=
  if py_eq event_type (JStr "executing") then
    payload <- get data "data" (JDict []) ;;
    node <- get payload "node" JNull ;;
    if is_none node then
      p <- get payload "prompt_id" JNull ;;
      Ok (py_eq p prompt_id)
    else Ok false
  else Ok false.

(** The second [if]: the argument of the [RuntimeError] it raises, if it
    does. *)
Definition execution_error (prompt_id data event_type : json) : result (option json) :=
  if py_eq event_type (JStr "execution_error") then
    payload <- get data "data" (JDict []) ;;
    p <- get payload "prompt_id" JNull ;;
    if py_eq p prompt_id then
      m <- get payload "exception_message" JNull ;;
      Ok (Some (py_or m (JStr "ComfyUI execution error")))
    else Ok None
  else Ok None.

(** The loop body once [ws.recv()] has returned a [str]: the state the
    turn leaves the wait in. *)
Definition on_message (w : world) (prompt_id : json) (message : string)
  : result watcher_state :=
  data <- call (json_loads w message) ;;
  event_type <- get data "type" JNull ;;
  done <- executing_done prompt_id data event_type ;;
  if done then Ok Completed
  else
    err <- execution_error prompt_id data event_type ;;
    match err with
    | Some m => Ok (Failed (py_str w m))
    | None => Ok Waiting
    end.

(** One turn of the [while True] loop, on what [ws.recv()] yields.  (No
    call of the loop body hangs: see [on_message_returns].) *)
Definition watch_event (w : world) (prompt_id : json) (r : recv_outcome) : watcher_state :=
  match r with
  | RecvRaise (Exn WebSocketTimeoutException _) => Waiting
  | RecvRaise e => Aborted e
  | RecvBinary _ => Waiting
  | RecvText message =>
      match on_message w prompt_id message with
      | Ok st => st
      | Raise e => Aborted e
      | Hang => Waiting
      end
  end.

(** The loop over the frames that arrive: the state it ends in and the
    number of [ws.recv()] calls made. *)
Fixpoint watch (w : world) (prompt_id : json) (frames : list recv_outcome)
  : watcher_state * nat :=
  match frames with
  | [] => (Waiting, O)
  | r :: rest =>
      match watch_event w prompt_id r with
      | Waiting => let (st, n) := watch w prompt_id rest in (st, S n)
      | st => (st, 1%nat)
      end
  end.

(** The outcome of the call and the calls made on the websocket.  When the
    frames run out with the loop still waiting, every further [recv] times
    out and the call never returns. *)
Definition wait_for_completion (w : world) (prompt_id : json) (client_id : string)
  : result unit * list ws_call :=
  let ws_url := "ws://" ++ COMFY_HOST w ++ "/ws?clientId=" ++ client_id in
  match ws_connect w ws_url with
  | Some e => (Raise e, [WsConnect ws_url])
  | None =>
      let (st, n) := watch w prompt_id (ws_frames w) in
      let calls := ([WsConnect ws_url; WsSetTimeout] ++ repeat WsRecv n)%list in
      match st with
      | Waiting => (Hang, calls)
      | Completed => (Ok tt, (calls ++ [WsClose])%list)
      | Failed message => (Raise (Exn RuntimeError message), (calls ++ [WsClose])%list)
      | Aborted e => (Raise e, (calls ++ [WsClose])%list)
      end
  end.

(** ** [fetch_history], [fetch_output_bytes] *)

Definition fetch_history (w : world) (prompt_id : json) : result json :=
  response <- request (get_history w prompt_id) ;;
  _ <- raise_for_status response ;;
  call (response_json response).

Definition fetch_output_bytes (w : world) (filename subfolder output_type : json)
  : result bytes :=
  response <- request (get_view w filename subfolder output_type) ;;
  _ <- raise_for_status response ;;
  Ok (content response).

(** ** [handler] *)

(** [history.get(prompt_id, {})]: the keys of [history] are strings; a list
    or a dict cannot be a key. *)
Definition get_key (history : json) (key : json) (default : json) : result json :=
  match history with
  | JDict d =>
      match key with
      | JStr k => Ok (dict_get d k default)
      | JList _ | JDict _ =>
          Raise (Exn TypeError ("unhashable type: '" ++ type_name key ++ "'"))
      | _ => Ok default
      end
  | _ => Raise (no_attribute history "get")
  end.

(** The record appended to a bucket. *)
Definition output_record (filename : json) (data : bytes) : json :=
  JDict [("filename", filename); ("type", JStr "base64"); ("data", JStr (b64encode data))].

(** The body of the loop over [node_output.get("images", [])]. *)
Definition collect_image (w : world) (images : list json) (image_info : json)
  : result (list json) :=
  ty <- get image_info "type" JNull ;;
  if py_eq ty (JStr "temp") then Ok images
  else
    filename <- get image_info "filename" JNull ;;
    if negb (truthy filename) then Ok images
    else
      subfolder <- get image_info "subfolder" (JStr "") ;;
      ty <- get image_info "type" JNull ;;
      image_bytes <- fetch_output_bytes w filename subfolder ty ;;
      Ok (images ++ [output_record filename image_bytes])%list.

(** The body of the loops over [node_output.get("videos", [])] and
    [node_output.get("gifs", [])], which are the same. *)
Definition collect_video (w : world) (videos : list json) (video_info : json)
  : result (list json) :=
  filename <- get video_info "filename" JNull ;;
  if negb (truthy filename) then Ok videos
  else
    subfolder <- get video_info "subfolder" (JStr "") ;;
    ty <- get video_info "type" JNull ;;
    video_bytes <- fetch_output_bytes w filename subfolder ty ;;
    Ok (videos ++ [output_record filename video_bytes])%list.

Definition collect_gif := collect_video.

(** The three buckets. *)
Record buckets : Type := Buckets {
  images : list json;
  videos : list json;
  gifs : list json
}.

(** The body of the loop over [outputs.values()]. *)
Definition collect_node (w : world) (b : buckets) (node_output : json) : result buckets :=
  image_infos <- get node_output "images" (JList []) ;;
  image_infos <- iter image_infos ;;
  images' <- for_each (collect_image w) image_infos (images b) ;;
  video_infos <- get node_output "videos" (JList []) ;;
  video_infos <- iter video_infos ;;
  videos' <- for_each (collect_video w) video_infos (videos b) ;;
  gif_infos <- get node_output "gifs" (JList []) ;;
  gif_infos <- iter gif_infos ;;
  gifs' <- for_each (collect_gif w) gif_infos (gifs b) ;;
  Ok (Buckets images' videos' gifs').

Definition collect_outputs (w : world) (outputs : json) : result buckets :=
  node_outputs <- values outputs ;;
  for_each (collect_node w) node_outputs (Buckets [] [] []).

Definition success_no_outputs : json :=
  JDict [("status", JStr "success_no_outputs");
         ("images", JList []); ("videos", JList []); ("gifs", JList [])].

(** The end of the [try] block, from the buckets to the value returned. *)
Definition build_response (b : buckets) : json :=
  match images b, videos b, gifs b with
  | [], [], [] => success_no_outputs
  | _, _, _ =>
      JDict ((match images b with [] => [] | _ => [("images", JList (images b))] end)
             ++ (match videos b with [] => [] | _ => [("videos", JList (videos b))] end)
             ++ (match gifs b with [] => [] | _ => [("gifs", JList (gifs b))] end))%list
  end.

Definition error_value (message : string) : json := JDict [("error", JStr message)].

(** The [try] block of [handler]. *)
Definition handler_try (w : world) (validated : json) (client_id : string) : result json :=
  workflow <- getitem validated "workflow" ;;
  comfy_org_api_key <- get validated "comfy_org_api_key" JNull ;;
  queued <- queue_workflow w workflow client_id comfy_org_api_key ;;
  prompt_id <- get queued "prompt_id" JNull ;;
  if negb (truthy prompt_id) then
    Ok (error_value ("Missing prompt_id in queue response: " ++ py_str w queued))
  else
    _ <- fst (wait_for_completion w prompt_id client_id) ;;
    history <- fetch_history w prompt_id ;;
    prompt_history <- get_key history prompt_id (JDict []) ;;
    outputs <- get prompt_history "outputs" (JDict []) ;;
    b <- collect_outputs w outputs ;;
    Ok (build_response b).

Definition handler (w : world) (job : json) : result json :=
  job_input <- get job "input" JNull ;;
  ve <- validate_input w job_input ;;
  let (validated, error) := ve in
  if truthy error then Ok (JDict [("error", error)])
  else if negb (check_server w) then
    Ok (error_value ("ComfyUI server (" ++ COMFY_HOST w ++ ") not reachable."))
  else
    imgs <- get validated "images" JNull ;;
    upload_error <- upload_images w imgs ;;
    if truthy upload_error then Ok (JDict [("error", upload_error)])
    else
      let client_id := uuid4 w in
      try_except (handler_try w validated client_id)
        (fun exc => Ok (error_value (exn_str exc))).

(** ** Vocabulary of the properties *)

(** The event a text frame carries: the frame decodes to an object whose
    [type] is [event_type] and whose payload [data.get("data", {})] is the
    object [payload]. *)
Definition carries_event (w : world) (r : recv_outcome) (event_type : json)
    (payload : list (string * json)) : Prop :=
  exists message data,
    r = RecvText message
    /\ json_loads w message = inl (JDict data)
    /\ dict_get data "type" JNull = event_type
    /\ dict_get data "data" (JDict []) = JDict payload.

(** The job identifier of a payload, [payload.get("prompt_id")]. *)
Definition job_id (payload : list (string * json)) : json :=
  dict_get payload "prompt_id" JNull.




(** The wait has ended (returned or raised). *)
Definition exited {A} (r : result A) : Prop := r <> Hang.

(** The pipeline of [handler] runs on [job] up to the history of the
    job [prompt_id], every stage succeeding. *)
Definition job_runs (w : world) (job : json) (prompt_id history : json) : Prop :=
  exists job_input validated error imgs upload_error workflow key queued,
    get job "input" JNull = Ok job_input
    /\ validate_input w job_input = Ok (validated, error)
    /\ truthy error = false
    /\ check_server w = true
    /\ get validated "images" JNull = Ok imgs
    /\ upload_images w imgs = Ok upload_error
    /\ truthy upload_error = false
    /\ getitem validated "workflow" = Ok workflow
    /\ get validated "comfy_org_api_key" JNull = Ok key
    /\ queue_workflow w workflow (uuid4 w) key = Ok queued
    /\ get queued "prompt_id" JNull = Ok prompt_id
    /\ truthy prompt_id = true
    /\ fst (wait_for_completion w prompt_id (uuid4 w)) = Ok tt
    /\ fetch_history w prompt_id = Ok history.

(** ... and the history holds the output map [outputs] for the job. *)
Definition job_completes (w : world) (job : json) (outputs : json) : Prop :=
  exists prompt_id history prompt_history,
    job_runs w job prompt_id history
    /\ get_key history prompt_id (JDict []) = Ok prompt_history
    /\ get prompt_history "outputs" (JDict []) = Ok outputs.

(** An identifier that can be the key of a dict. *)
Definition hashable (v : json) : bool :=
  match v with
  | JList _ | JDict _ => false
  | _ => true
  end.

(** [images] as the error text of [validate_input] words it: a list of
    objects with 'name' and 'image' keys. *)
Definition has_key (k : string) (d : list (string * json)) : Prop :=
  exists v, lookup k d = Some v.

Definition images_with_keys (images : json) : Prop :=
  exists l, images = JList l
    /\ Forall (fun image => exists d, image = JDict d /\ has_key "name" d /\ has_key "image" d) l.

(** [images] as the specification words it: a sequence of objects each
    exposing [name] and [image] string fields. *)
Definition has_string_field (k : string) (d : list (string * json)) : Prop :=
  exists s, lookup k d = Some (JStr s).

Definition spec_images_valid (images : json) : Prop :=
  exists l, images = JList l
    /\ Forall (fun image =>
                 exists d, image = JDict d
                   /\ has_string_field "name" d /\ has_string_field "image" d) l.

Definition invalid_images_error : json :=
  JStr "'images' must be a list of objects with 'name' and 'image' keys".

(** The characters the decoder looks at: the alphabet and the pad. *)
Definition kept (ch : byte) : bool :=
  Byte.eqb ch BASE64_PAD
  || match table_a2b_base64 ch with Some _ => true | None => false end.

(** The characters of the alphabet. *)
Definition counted (ch : byte) : bool :=
  negb (Byte.eqb ch BASE64_PAD)
  && match table_a2b_base64 ch with Some _ => true | None => false end.

(** What is left of [s] once the characters outside the base64 alphabet
    (the pad character aside) are discarded. *)
Definition retained (s : string) : bytes := filter kept (list_byte_of_string s).

(** The number of alphabet characters of [s]. *)
Definition alphabet_count (s : string) : nat :=
  List.length (filter counted (list_byte_of_string s)).

Definition all_ascii (s : string) : bool := forallb is_ascii (list_ascii_of_string s).

(** ** Sample worlds *)

Definition ok_response (body : json) (data : bytes) : response :=
  Response 200 "OK" "" "" (inl body) data.

(** A [json.loads] that knows the documents of a table; the text of a
    sample frame names the document it stands for. *)
Definition loads_table (table : list (string * json)) (s : string) : json + exn :=
  match lookup s table with
  | Some v => inl v
  | None => inr (Exn JSONDecodeError "Expecting value: line 1 column 1 (char 0)")
  end.

Definition executing (node prompt_id : json) : json :=
  JDict [("type", JStr "executing");
         ("data", JDict [("node", node); ("prompt_id", prompt_id)])].

Definition sample_documents : list (string * json) :=
  [("executing p1 node 3", executing (JStr "3") (JStr "p1"));
   ("executing p2 done", executing JNull (JStr "p2"));
   ("executing p1 done", executing JNull (JStr "p1"));
   ("error p1",
    JDict [("type", JStr "execution_error");
           ("data", JDict [("prompt_id", JStr "p1"); ("exception_message", JStr "boom")])]);
   ("status", JDict [("type", JStr "status"); ("data", JDict [("prompt_id", JStr "p2")])]);
   ("[1, 2]", JList [JNum 1; JNum 2])].

(** The upload of a file under [name] on the sample server: [requests]
    raises on a name that is neither a [str] nor [None], and the server
    accepts the others. *)
Definition sample_upload (name : json) (blob : bytes) : upload_outcome :=
  match name with
  | JStr _ | JNull => Uploaded (Answered (ok_response JNull []))
  | _ => UploadRaised
           (Exn AttributeError
              ("'" ++ type_name name ++ "' object has no attribute 'translate'"))
  end.

(** A server that is up at the third probe, accepts the workflow as job
    "p1", sends [frames] and has [history] for it; every file it serves is
    "hello". *)
Definition sample_world (connect : option exn) (frames : list recv_outcome)
    (history : json) : world :=
  {| COMFY_HOST := "127.0.0.1:8188";
     CHECK_RETRIES := 500;
     COMFY_ORG_API_KEY := JNull;
     json_loads := loads_table sample_documents;
     repr := fun _ => "<repr>";
     uuid4 := "6f1c";
     get_root := fun i => if (i <? 2)%nat then RequestFailed "Connection refused"
                          else Answered (ok_response JNull []);
     post_upload_image := sample_upload;
     post_prompt := fun _ => Answered (ok_response (JDict [("prompt_id", JStr "p1")]) []);
     ws_connect := fun _ => connect;
     ws_frames := frames;
     get_history := fun _ => Answered (ok_response history []);
     get_view := fun _ _ _ => Answered (ok_response JNull (list_byte_of_string "hello")) |}.

Definition connect_timeout : exn := Exn WebSocketTimeoutException "timed out".

Definition sample_frames : list recv_outcome :=
  [RecvRaise (Exn WebSocketTimeoutException "timed out");
   RecvText "executing p1 node 3";
   RecvBinary [];
   RecvText "executing p2 done";
   RecvText "executing p1 done"].

Definition sample_job : json :=
  JDict [("input", JDict [("workflow", JDict [("3", JDict [])])])].

(** A history in which the job has one transient video and one transient
    image. *)
Definition temp_history : json :=
  JDict [("p1",
          JDict [("outputs",
                  JDict [("7", JDict [("images",
                                       JList [JDict [("filename", JStr "preview.png");
                                                     ("subfolder", JStr "");
                                                     ("type", JStr "temp")]]);
                                      ("videos",
                                       JList [JDict [("filename", JStr "clip.mp4");
                                                     ("subfolder", JStr "");
                                                     ("type", JStr "temp")]])])])])].

(** ** Vocabulary of the further properties *)

(** The payload [queue_workflow] builds: the workflow and the client
    identifier, and the API key when there is one. *)
Definition prompt_payload (w : world) (workflow : json) (client_id : string)
    (comfy_org_api_key : json) : json :=
  let key := py_or comfy_org_api_key (COMFY_ORG_API_KEY w) in
  JDict ([("prompt", workflow); ("client_id", JStr client_id)]
         ++ (if truthy key then [("extra_data", JDict [("api_key_comfy_org", key)])]
             else []))%list.

(** What [queue_workflow] makes of the answer to its request. *)
Definition queue_answer (o : http_outcome) : result json :=
  response <- request o ;;
  if status_code response =? 400 then
    Raise (Exn ValueError ("Workflow validation failed: " ++ text response))
  else
    _ <- raise_for_status response ;;
    call (response_json response).

(** The stages of [handler] before its [try] succeed on [job] and leave
    the record [validated]. *)
Definition job_uploaded (w : world) (job validated : json) : Prop :=
  exists job_input error imgs upload_error,
    get job "input" JNull = Ok job_input
    /\ validate_input w job_input = Ok (validated, error)
    /\ truthy error = false
    /\ check_server w = true
    /\ get validated "images" JNull = Ok imgs
    /\ upload_images w imgs = Ok upload_error
    /\ truthy upload_error = false.

(** ... and the server has queued the workflow as job [prompt_id]. *)
Definition job_queued (w : world) (job prompt_id : json) : Prop :=
  exists validated workflow key queued,
    job_uploaded w job validated
    /\ getitem validated "workflow" = Ok workflow
    /\ get validated "comfy_org_api_key" JNull = Ok key
    /\ queue_workflow w workflow (uuid4 w) key = Ok queued
    /\ get queued "prompt_id" JNull = Ok prompt_id
    /\ truthy prompt_id = true.

(** The websocket address of the job. *)
Definition ws_url_of (w : world) : string :=
  "ws://" ++ COMFY_HOST w ++ "/ws?clientId=" ++ uuid4 w.

(** The frames the loop passes over without looking at them: binary frames
    and receive timeouts. *)
Definition is_noise (r : recv_outcome) : bool :=
  match r with
  | RecvBinary _ => true
  | RecvRaise (Exn WebSocketTimeoutException _) => true
  | _ => false
  end.

(** The entries of which the loop over the images makes a record: objects
    that are not transient and have a file name. *)
Definition image_kept (image_info : json) : bool :=
  match image_info with
  | JDict d =>
      negb (py_eq (dict_get d "type" JNull) (JStr "temp"))
      && truthy (dict_get d "filename" JNull)
  | _ => false
  end.

(** The entries of which the loops over the videos and the gifs make a
    record: objects with a file name. *)
Definition video_kept (video_info : json) : bool :=
  match video_info with
  | JDict d => truthy (dict_get d "filename" JNull)
  | _ => false
  end.

(** [record] is the record of the entry [info]: its file name and the
    bytes the server gives for it, in base64. *)
Definition record_of (w : world) (info record : json) : Prop :=
  exists d data,
    info = JDict d
    /\ fetch_output_bytes w (dict_get d "filename" JNull)
         (dict_get d "subfolder" (JStr "")) (dict_get d "type" JNull) = Ok data
    /\ record = output_record (dict_get d "filename" JNull) data.

Definition is_output_record (v : json) : Prop :=
  exists filename data, v = output_record filename data.

(** The values [handler] returns: an error with its text, or what
    [build_response] makes of buckets of records. *)
Definition well_formed_result (v : json) : Prop :=
  (exists msg, v = error_value msg)
  \/ (exists b,
        v = build_response b
        /\ Forall is_output_record (images b)
        /\ Forall is_output_record (videos b)
        /\ Forall is_output_record (gifs b)).

(** The six-bit values of the four characters that encode three bytes. *)
Definition quad_of (a b c : Z) : Z * Z * Z * Z :=
  (Z.shiftr a 2,
   Z.lor (Z.shiftl a 4) (Z.shiftr b 4),
   Z.lor (Z.shiftl b 2) (Z.shiftr c 6),
   c).

(** The checks on which the round trip rests, over all six-bit values and
    all pairs of bytes. *)
Definition b2a_at (n : nat) : ascii :=
  match String.get n table_b2a_base64 with
  | Some c => c
  | None => "="%char
  end.

Definition alphabet_check (n : nat) : bool :=
  let c := b2a_at n in
  is_ascii c
  && negb (Byte.eqb (byte_of_ascii c) BASE64_PAD)
  && negb (Ascii.eqb c comma)
  && match table_a2b_base64 (byte_of_ascii c) with
     | Some v => v =? Z.of_nat n
     | None => false
     end.

Definition quad_check (x y : nat) : bool :=
  let a := Z.of_nat x in
  let b := Z.of_nat y in
  let v1 := Z.land (Z.shiftr a 2) 63 in
  let v2 := Z.land (Z.lor (Z.shiftl a 4) (Z.shiftr b 4)) 63 in
  let v3 := Z.land (Z.lor (Z.shiftl a 2) (Z.shiftr b 6)) 63 in
  let v4 := Z.land b 63 in
  (* first byte of a quad, from the characters of [a] and [a, b] *)
  ((Z.lor (Z.shiftl v1 2) (Z.shiftr v2 4)) mod 256 =? a)
  (* second byte, [b] here, from the characters of [a, b] and [b, y]:
     what the second character leaves and what the third brings *)
  && (Z.land v2 15 =? b / 16)
  && (Z.shiftr v3 2 =? Z.land a 15)
  && ((Z.lor (Z.shiftl (a / 16) 4) (Z.land a 15)) mod 256 =? a)
  (* third byte *)
  && (Z.land v3 3 =? b / 64)
  && ((Z.lor (Z.shiftl (b / 64) 6) v4) mod 256 =? b)
  (* the short quads of one and of two bytes *)
  && ((Z.lor (Z.shiftl v1 2) (Z.shiftr (Z.land (Z.shiftl a 4) 63) 4)) mod 256 =? a)
  && (Z.shiftr (Z.land (Z.shiftl a 2) 63) 2 =? Z.land a 15).

(** ** Further sample worlds *)

(** [w] with another answer to the submission of the workflow. *)
Definition with_prompt (w : world) (post : json -> http_outcome) : world :=
  {| COMFY_HOST := COMFY_HOST w; CHECK_RETRIES := CHECK_RETRIES w;
     COMFY_ORG_API_KEY := COMFY_ORG_API_KEY w; json_loads := json_loads w;
     repr := repr w; uuid4 := uuid4 w; get_root := get_root w;
     post_upload_image := post_upload_image w; post_prompt := post;
     ws_connect := ws_connect w; ws_frames := ws_frames w;
     get_history := get_history w; get_view := get_view w |}.

(** [w] with another answer to the requests for the files. *)
Definition with_view (w : world) (view : json -> json -> json -> http_outcome) : world :=
  {| COMFY_HOST := COMFY_HOST w; CHECK_RETRIES := CHECK_RETRIES w;
     COMFY_ORG_API_KEY := COMFY_ORG_API_KEY w; json_loads := json_loads w;
     repr := repr w; uuid4 := uuid4 w; get_root := get_root w;
     post_upload_image := post_upload_image w; post_prompt := post_prompt w;
     ws_connect := ws_connect w; ws_frames := ws_frames w;
     get_history := get_history w; get_view := view |}.

(** [w] with another [json.loads]. *)
Definition with_loads (w : world) (loads : string -> json + exn) : world :=
  {| COMFY_HOST := COMFY_HOST w; CHECK_RETRIES := CHECK_RETRIES w;
     COMFY_ORG_API_KEY := COMFY_ORG_API_KEY w; json_loads := loads;
     repr := repr w; uuid4 := uuid4 w; get_root := get_root w;
     post_upload_image := post_upload_image w; post_prompt := post_prompt w;
     ws_connect := ws_connect w; ws_frames := ws_frames w;
     get_history := get_history w; get_view := get_view w |}.

(** The answer of a server that rejects the workflow. *)
Definition rejection : response :=
  Response 400 "Bad Request" "http://127.0.0.1:8188/prompt"
    "invalid prompt: node 3 has no class_type" (inl JNull) [].

(** The answer of a server that does not have a file. *)
Definition not_found : response :=
  Response 404 "Not Found" "http://127.0.0.1:8188/view" "" (inl JNull) [].

(** A history in which the job has two images, a transient one between
    them, and a video without a file name. *)
Definition two_images_history : json :=
  JDict [("p1",
          JDict [("outputs",
                  JDict [("7", JDict [("images",
                                       JList [JDict [("filename", JStr "a.png");
                                                     ("type", JStr "output")];
                                              JDict [("filename", JStr "preview.png");
                                                     ("type", JStr "temp")];
                                              JDict [("filename", JStr "b.png");
                                                     ("type", JStr "output")]]);
                                      ("videos",
                                       JList [JDict [("type", JStr "output")]])])])])].

(** Documents of requests, for inputs given as JSON strings. *)
Definition request_documents : list (string * json) :=
  [("request", JDict [("workflow", JDict [("3", JDict [])])])].

(** [requests.post] raises [e] for the name of one of [images]. *)
Definition upload_raised (w : world) (images : json) (e : exn) : Prop :=
  exists l image name blob,
    images = JList l
    /\ In image l
    /\ getitem image "name" = Ok name
    /\ post_upload_image w name blob = UploadRaised e.

(** [w] with other answers to the readiness probes. *)
Definition with_root (w : world) (root : nat -> http_outcome) : world :=
  {| COMFY_HOST := COMFY_HOST w; CHECK_RETRIES := CHECK_RETRIES w;
     COMFY_ORG_API_KEY := COMFY_ORG_API_KEY w; json_loads := json_loads w;
     repr := repr w; uuid4 := uuid4 w; get_root := root;
     post_upload_image := post_upload_image w; post_prompt := post_prompt w;
     ws_connect := ws_connect w; ws_frames := ws_frames w;
     get_history := get_history w; get_view := get_view w |}.

(** The answer of a server that is still starting. *)
Definition unavailable : response :=
  Response 503 "Service Unavailable" "http://127.0.0.1:8188/" "" (inl JNull) [].

(** Probes of a server that starts: the connection refused, then status
    503, then status 200. *)
Definition starting_server (i : nat) : http_outcome :=
  match i with
  | O => RequestFailed "Connection refused"
  | S O => Answered unavailable
  | _ => Answered (ok_response JNull [])
  end.

(** Whether the websocket holds a connection after the calls made on it,
    [held] telling whether it did before them.  The handshake of [connect]
    gives it one when it succeeds; when it fails there is none (the
    library gives up its socket before it raises); [close] releases it. *)
Fixpoint connection_held (w : world) (calls : list ws_call) (held : bool) : bool :=
  match calls with
  | [] => held
  | WsConnect url :: rest =>
      connection_held w rest (match ws_connect w url with None => true | Some _ => false end)
  | WsClose :: rest => connection_held w rest false
  | _ :: rest => connection_held w rest held
  end.




(** ** Proof steps *)

(** Case analysis on what the goal branches on, outermost first. *)
Ltac break_match :=
  match goal with
  | |- context [match ?x with _ => _ end] =>
      lazymatch x with
      | context [match _ with _ => _ end] => fail
      | _ => destruct x eqn:?
      end
  end.

(** * Properties *)

Example b64decode_hello : b64decode "aGVsbG8=" = Ok (list_byte_of_string "hello").
Proof. reflexivity. Qed.
Example b64encode_hello : b64encode (list_byte_of_string "hello") = "aGVsbG8=".
Proof. reflexivity. Qed.
Example b64decode_pad1 : b64decode "QQ=" = Raise (Exn BinasciiError "Incorrect padding").
Proof. reflexivity. Qed.
Example b64decode_one : exists m, b64decode "QUJDQ" = Raise (Exn BinasciiError m).
Proof. eexists. vm_compute. reflexivity. Qed.

(** ** [strip_data_uri] *)

Section StripDataUri.

Variable c : ascii.

Lemma contains_In (data : string) :
  contains c data = true <-> In c (list_ascii_of_string data).
Proof.
  induction data as [|x r IH]; simpl.
  - split; [discriminate | tauto].
  - destruct (Ascii.eqb_spec x c) as [->|Hne].
    + split; auto.
    + rewrite IH. split; [auto | intros [H|H]; [congruence | exact H]].
Qed.

Lemma split1_absent (data : string) :
  contains c data = false -> split1 c data = [data].
Proof.
  induction data as [|x r IH]; simpl; [reflexivity|].
  destruct (Ascii.eqb x c); [discriminate|].
  intros H. rewrite (IH H). reflexivity.
Qed.

Lemma split1_present (data : string) :
  contains c data = true ->
  exists pre post,
    split1 c data = [pre; post]
    /\ contains c pre = false
    /\ data = pre ++ String c post.
Proof.
  induction data as [|x r IH]; simpl; [discriminate|].
  destruct (Ascii.eqb_spec x c) as [->|Hne].
  - intros _. exists "", r. repeat split.
  - intros H. destruct (IH H) as (pre & post & Hs & Hpre & Hr).
    exists (String x pre), post. rewrite Hs. simpl.
    apply Ascii.eqb_neq in Hne. rewrite Hne.
    repeat split; [exact Hpre | now rewrite Hr].
Qed.

End StripDataUri.

(** C8: a string without a comma comes back unchanged (so stripping it
    again changes nothing); a string with a comma comes back as what
    follows its first comma: the input is a comma-free prefix, the comma,
    and the result. *)
Theorem strip_data_uri_spec (data : string) :
  (~ In comma (list_ascii_of_string data) ->
     strip_data_uri data = data
     /\ strip_data_uri (strip_data_uri data) = strip_data_uri data)
  /\ (In comma (list_ascii_of_string data) ->
        exists pre,
          ~ In comma (list_ascii_of_string pre)
          /\ data = pre ++ String comma (strip_data_uri data)).
Proof.
  unfold strip_data_uri. split.
  - intros Hno.
    assert (H : contains comma data = false).
    { destruct (contains comma data) eqn:E; [|reflexivity].
      apply contains_In in E. contradiction. }
    rewrite H. cbv iota. rewrite H. split; reflexivity.
  - intros Hin. apply contains_In in Hin. rewrite Hin.
    destruct (split1_present comma data Hin) as (pre & post & Hs & Hpre & Hd).
    exists pre. rewrite Hs. simpl. split; [|exact Hd].
    intros Hc. apply contains_In in Hc. congruence.
Qed.

Lemma strip_data_uri_spec_witness :
  (strip_data_uri "aGVsbG8=" = "aGVsbG8="
   /\ strip_data_uri (strip_data_uri "aGVsbG8=") = strip_data_uri "aGVsbG8=")
  /\ exists pre,
       ~ In comma (list_ascii_of_string pre)
       /\ "data:image/png;base64,aGVs,bG8=" = pre ++ String comma (strip_data_uri "data:image/png;base64,aGVs,bG8=").
Proof.
  split.
  - apply (strip_data_uri_spec "aGVsbG8=").
    simpl. intros H. repeat (destruct H as [H|H]; [discriminate H|]). exact H.
  - apply (strip_data_uri_spec "data:image/png;base64,aGVs,bG8=").
    simpl. do 21 right. left. reflexivity.
Defined.

Example strip_data_uri_png :
  strip_data_uri "data:image/png;base64,aGVs,bG8=" = "aGVs,bG8=".
Proof. reflexivity. Qed.

(** ** [check_server] *)

Section CheckServer.

Variable w : world.

(** The loop started after [i] requests, with [retries] attempts left:
    either attempt [k] is the first one answered with 200 and the loop
    stops there, or none of the [retries] attempts is and all are made. *)
Lemma check_server_loop_spec (retries i : nat) :
  (exists k, (i <= k < i + retries)%nat
     /\ probe_ok (get_root w k) = true
     /\ (forall j, (i <= j < k)%nat -> probe_ok (get_root w j) = false)
     /\ check_server_loop w retries i = (true, S k))
  \/ ((forall j, (i <= j < i + retries)%nat -> probe_ok (get_root w j) = false)
      /\ check_server_loop w retries i = (false, (i + retries)%nat)).
Proof.
  revert i. induction retries as [|n IH]; intros i; simpl.
  - right. split; [intros j Hj; lia | f_equal; lia].
  - destruct (probe_ok (get_root w i)) eqn:E.
    + left. exists i. split; [lia|]. split; [exact E|]. split; [|reflexivity].
      intros j Hj; lia.
    + destruct (IH (S i)) as [(k & Hk & Hok & Hfirst & Hrun) | (Hnone & Hrun)].
      * left. exists k. split; [lia|]. split; [exact Hok|]. split; [|exact Hrun].
        intros j Hj. destruct (Nat.eq_dec j i) as [->|Hne]; [exact E|].
        apply Hfirst. lia.
      * right. split.
        -- intros j Hj. destruct (Nat.eq_dec j i) as [->|Hne]; [exact E|].
           apply Hnone. lia.
        -- rewrite Hrun. f_equal. lia.
Qed.

End CheckServer.

(** An attempt counts exactly when the request is answered, and with
    status 200. *)
Lemma probe_ok_200 (o : http_outcome) :
  probe_ok o = true <-> exists r, o = Answered r /\ status_code r = 200.
Proof.
  destruct o as [r|msg]; cbn [probe_ok].
  - rewrite Z.eqb_eq. split; [intros H; now exists r | intros (r' & Hr & H); now injection Hr as <-].
  - split; [discriminate | intros (r & Hr & _); discriminate Hr].
Qed.

Lemma probe_not_200 (o : http_outcome) :
  probe_ok o = false -> forall r, o = Answered r -> status_code r <> 200.
Proof.
  intros H r Hr Hs. assert (Ht : probe_ok o = true) by (apply probe_ok_200; eauto).
  congruence.
Qed.

(** C5: [check_server] returns [True] exactly when one of the
    [CHECK_RETRIES] attempts is answered with status 200, and it then stops
    at the first such attempt; it returns [False] only with all
    [CHECK_RETRIES] attempts made and none answered with status 200 (an
    attempt that is answered with another status, or that fails with an
    exception of [requests], is no success). *)
Theorem check_server_first_success (w : world) :
  let retries := Z.to_nat (CHECK_RETRIES w) in
  (check_server w = true <->
     exists k r, (k < retries)%nat /\ get_root w k = Answered r /\ status_code r = 200)
  /\ (check_server w = true ->
        exists k r, (k < retries)%nat
          /\ get_root w k = Answered r /\ status_code r = 200
          /\ (forall j r', (j < k)%nat -> get_root w j = Answered r' -> status_code r' <> 200)
          /\ snd (check_server_run w) = S k)
  /\ (check_server w = false ->
        snd (check_server_run w) = retries
        /\ forall j r', (j < retries)%nat -> get_root w j = Answered r' ->
                        status_code r' <> 200).
Proof.
  intros retries. unfold check_server, check_server_run. fold retries.
  destruct (check_server_loop_spec w retries 0)
    as [(k & Hk & Hok & Hfirst & Hrun) | (Hnone & Hrun)]; rewrite Hrun; simpl.
  - apply probe_ok_200 in Hok. destruct Hok as (r & Hr & Hs).
    split; [|split].
    + split; [|reflexivity]. intros _. exists k, r. split; [lia | auto].
    + intros _. exists k, r. split; [lia|]. split; [exact Hr|]. split; [exact Hs|].
      split; [|reflexivity].
      intros j r' Hj. apply probe_not_200. apply Hfirst. lia.
    + discriminate.
  - split; [|split].
    + split; [discriminate|]. intros (k & r & Hk & Hr & Hs).
      assert (Ht : probe_ok (get_root w k) = true) by (apply probe_ok_200; eauto).
      rewrite Hnone in Ht by lia. discriminate.
    + discriminate.
    + intros _. split; [reflexivity|]. intros j r' Hj. apply probe_not_200. apply Hnone. lia.
Qed.

(** A server that first refuses the connection, then answers 503, then
    200: the third attempt is the first success. *)
Lemma check_server_first_success_witness :
  let w := with_root (sample_world None sample_frames temp_history) starting_server in
  check_server w = true
  /\ check_server_run w = (true, 3%nat)
  /\ get_root w 0 = RequestFailed "Connection refused"
  /\ status_code unavailable = 503 /\ get_root w 1 = Answered unavailable
  /\ exists k r, (k < 500)%nat
       /\ get_root w k = Answered r /\ status_code r = 200
       /\ (forall j r', (j < k)%nat -> get_root w j = Answered r' -> status_code r' <> 200)
       /\ snd (check_server_run w) = S k.
Proof.
  intros w. split; [reflexivity|]. do 4 (split; [reflexivity|]).
  apply (check_server_first_success w). reflexivity.
Defined.

Example check_server_third_probe :
  check_server_run (sample_world None sample_frames temp_history) = (true, 3%nat).
Proof. reflexivity. Qed.

(** ** [wait_for_completion]: the transitions of the wait *)

Lemma bind_ok {A B} (m : result A) (k : A -> result B) (b : B) :
  bind m k = Ok b -> exists a, m = Ok a /\ k a = Ok b.
Proof. destruct m; cbn [bind]; try discriminate. eauto. Qed.



Section Watcher.

Variable w : world.
Variable prompt_id : json.



Lemma on_message_returns (message : string) :
  on_message w prompt_id message <> Hang.
Proof.
  unfold on_message, executing_done, execution_error, get, call, bind.
  repeat break_match; discriminate.
Qed.






End Watcher.









(** The call returns exactly when the handshake succeeds and the loop ends
    in [Completed]. *)
Lemma wait_for_completion_returns (w : world) (prompt_id : json) (client_id : string) :
  fst (wait_for_completion w prompt_id client_id) = Ok tt <->
  ws_connect w ("ws://" ++ COMFY_HOST w ++ "/ws?clientId=" ++ client_id) = None
  /\ fst (watch w prompt_id (ws_frames w)) = Completed.
Proof.
  unfold wait_for_completion.
  destruct (ws_connect w _) as [e|]; simpl.
  - split; [discriminate | intros [H _]; discriminate H].
  - destruct (watch w prompt_id (ws_frames w)) as [st n]. simpl.
    destruct st; simpl; split; try discriminate; try (intros [_ H]; discriminate H); auto.
Qed.

(** ** [wait_for_completion]: closing the websocket *)

(** When the handshake fails the exception leaves the function before the
    [try], and [close] is not called. *)
Lemma close_skipped_on_connect_timeout :
  let w := sample_world (Some connect_timeout) sample_frames temp_history in
  exited (fst (wait_for_completion w (JStr "p1") "6f1c"))
  /\ fst (wait_for_completion w (JStr "p1") "6f1c") = Raise connect_timeout
  /\ ~ In WsClose (snd (wait_for_completion w (JStr "p1") "6f1c")).
Proof.
  intros w. split; [discriminate|]. split; [reflexivity|].
  simpl. intros [H|[]]. discriminate H.
Qed.

(** Once the handshake has succeeded, every way
    out of the wait (the return, the execution error, any other
    exception) calls [close], once and last; when the handshake fails, the
    exception is passed on and [connect] is the only call made. *)
Theorem websocket_closed_after_connect (w : world) (prompt_id : json) (client_id : string) :
  let ws_url := "ws://" ++ COMFY_HOST w ++ "/ws?clientId=" ++ client_id in
  let run := wait_for_completion w prompt_id client_id in
  (ws_connect w ws_url = None ->
     exited (fst run) ->
     exists calls, snd run = (calls ++ [WsClose])%list /\ ~ In WsClose calls)
  /\ (forall e, ws_connect w ws_url = Some e ->
        run = (Raise e, [WsConnect ws_url])).
Proof.
  intros ws_url run. subst run. unfold wait_for_completion. fold ws_url.
  destruct (ws_connect w ws_url) as [e|]; split; try discriminate.
  - intros e' H. injection H as ->. reflexivity.
  - intros _.
    destruct (watch w prompt_id (ws_frames w)) as [st n].
    assert (Hcalls : ~ In WsClose ([WsConnect ws_url; WsSetTimeout] ++ repeat WsRecv n)%list).
    { intros Hin. apply in_app_or in Hin. destruct Hin as [[H|[H|[]]]|H]; try discriminate.
      apply repeat_spec in H. discriminate. }
    destruct st; cbn [fst snd]; intros Hex;
      [exfalso; apply Hex; reflexivity | | |];
      exists ([WsConnect ws_url; WsSetTimeout] ++ repeat WsRecv n)%list;
      (split; [reflexivity | exact Hcalls]).
Qed.

Lemma websocket_closed_after_connect_witness :
  let w := sample_world None [RecvText "not json"] temp_history in
  let run := wait_for_completion w (JStr "p1") "6f1c" in
  (ws_connect w "ws://127.0.0.1:8188/ws?clientId=6f1c" = None
   /\ exited (fst run)
   /\ exists calls, snd run = (calls ++ [WsClose])%list /\ ~ In WsClose calls)
  /\ (let w' := sample_world (Some connect_timeout) sample_frames temp_history in
      ws_connect w' "ws://127.0.0.1:8188/ws?clientId=6f1c" = Some connect_timeout
      /\ wait_for_completion w' (JStr "p1") "6f1c"
         = (Raise connect_timeout, [WsConnect "ws://127.0.0.1:8188/ws?clientId=6f1c"])).
Proof.
  intros w run. split.
  - split; [reflexivity|]. split; [discriminate|].
    apply (websocket_closed_after_connect w (JStr "p1") "6f1c"); [reflexivity | discriminate].
  - intros w'. split; [reflexivity|].
    apply (websocket_closed_after_connect w' (JStr "p1") "6f1c"). reflexivity.
Defined.

Lemma connection_held_app (w : world) (calls calls' : list ws_call) (held : bool) :
  connection_held w (calls ++ calls') held
  = connection_held w calls' (connection_held w calls held).
Proof.
  revert held. induction calls as [|c rest IH]; intros held; [reflexivity|].
  destruct c; cbn [app connection_held]; apply IH.
Qed.

Lemma connection_held_recv (w : world) (n : nat) (held : bool) :
  connection_held w (repeat WsRecv n) held = held.
Proof. induction n as [|n IH]; [reflexivity | exact IH]. Qed.

(** C7: on every way out of [wait_for_completion] (the return at the
    completion event, the execution error, a failed or timed-out
    handshake, any other exception of the wait) the websocket holds no
    connection: after a handshake that succeeded, [close] has been called,
    once and as the last call; after one that failed, no connection was
    made.  (As long as the wait goes on, the connection is held.) *)
Theorem websocket_released_on_exit (w : world) (prompt_id : json) (client_id : string) :
  let ws_url := "ws://" ++ COMFY_HOST w ++ "/ws?clientId=" ++ client_id in
  let run := wait_for_completion w prompt_id client_id in
  (exited (fst run) -> connection_held w (snd run) false = false)
  /\ (exited (fst run) -> ws_connect w ws_url = None ->
        exists calls,
          snd run = (calls ++ [WsClose])%list
          /\ ~ In WsClose calls
          /\ connection_held w calls false = true)
  /\ (fst run = Hang -> connection_held w (snd run) false = true).
Proof.
  intros ws_url run. subst run. unfold wait_for_completion. fold ws_url.
  destruct (ws_connect w ws_url) as [e|] eqn:Ec.
  - cbn [fst snd connection_held]. rewrite Ec.
    split; [reflexivity|]. split; discriminate.
  - destruct (watch w prompt_id (ws_frames w)) as [st n].
    assert (Hopen : connection_held w ([WsConnect ws_url; WsSetTimeout] ++ repeat WsRecv n)
                      false = true).
    { rewrite connection_held_app, connection_held_recv.
      cbn [connection_held]. now rewrite Ec. }
    assert (Hcalls : ~ In WsClose ([WsConnect ws_url; WsSetTimeout] ++ repeat WsRecv n)%list).
    { intros Hin. apply in_app_or in Hin. destruct Hin as [[H|[H|[]]]|H]; try discriminate.
      apply repeat_spec in H. discriminate. }
    destruct st; cbn [fst snd].
    + split; [intros Hex; exfalso; now apply Hex|].
      split; [intros Hex; exfalso; now apply Hex | intros _; exact Hopen].
    + split; [intros _; now rewrite connection_held_app|].
      split; [|discriminate]. intros _ _. eexists. repeat split; eauto.
    + split; [intros _; now rewrite connection_held_app|].
      split; [|discriminate]. intros _ _. eexists. repeat split; eauto.
    + split; [intros _; now rewrite connection_held_app|].
      split; [|discriminate]. intros _ _. eexists. repeat split; eauto.
Qed.

(** A handshake that times out; a frame that cannot be decoded; an
    execution error; the completion; a wait that goes on. *)
Lemma websocket_released_on_exit_witness :
  let timed_out := sample_world (Some connect_timeout) sample_frames temp_history in
  let broken := sample_world None [RecvText "not json"] temp_history in
  let failed := sample_world None [RecvText "error p1"] temp_history in
  let done := sample_world None sample_frames temp_history in
  let waiting := sample_world None [RecvText "status"] temp_history in
  (fst (wait_for_completion timed_out (JStr "p1") "6f1c") = Raise connect_timeout
   /\ connection_held timed_out (snd (wait_for_completion timed_out (JStr "p1") "6f1c")) false
      = false)
  /\ (exited (fst (wait_for_completion broken (JStr "p1") "6f1c"))
      /\ connection_held broken (snd (wait_for_completion broken (JStr "p1") "6f1c")) false
         = false)
  /\ (fst (wait_for_completion failed (JStr "p1") "6f1c") = Raise (Exn RuntimeError "boom")
      /\ connection_held failed (snd (wait_for_completion failed (JStr "p1") "6f1c")) false
         = false)
  /\ (fst (wait_for_completion done (JStr "p1") "6f1c") = Ok tt
      /\ exists calls,
           snd (wait_for_completion done (JStr "p1") "6f1c") = (calls ++ [WsClose])%list
           /\ ~ In WsClose calls
           /\ connection_held done calls false = true)
  /\ (fst (wait_for_completion waiting (JStr "p1") "6f1c") = Hang
      /\ connection_held waiting (snd (wait_for_completion waiting (JStr "p1") "6f1c")) false
         = true).
Proof.
  intros timed_out broken failed done waiting.
  split; [|split; [|split; [|split]]].
  - split; [reflexivity|].
    apply (websocket_released_on_exit timed_out (JStr "p1") "6f1c"). discriminate.
  - split; [discriminate|].
    apply (websocket_released_on_exit broken (JStr "p1") "6f1c"). discriminate.
  - split; [reflexivity|].
    apply (websocket_released_on_exit failed (JStr "p1") "6f1c"). discriminate.
  - split; [reflexivity|].
    apply (websocket_released_on_exit done (JStr "p1") "6f1c"); [discriminate | reflexivity].
  - split; [reflexivity|].
    apply (websocket_released_on_exit waiting (JStr "p1") "6f1c"). reflexivity.
Defined.

(** ** [validate_input] *)

Lemma dict_mem_has_key (k : string) (d : list (string * json)) :
  dict_mem k d = true <-> has_key k d.
Proof.
  unfold dict_mem, has_key. destruct (lookup k d) as [v|].
  - split; [intros _; now exists v | reflexivity].
  - split; [discriminate | intros [v H]; discriminate H].
Qed.

Lemma image_ok_spec (image : json) :
  image_ok image = true <->
  exists d, image = JDict d /\ has_key "name" d /\ has_key "image" d.
Proof.
  destruct image as [| | | | |d]; simpl;
    try (split; [discriminate | intros (d' & H & _); discriminate H]).
  rewrite andb_true_iff, !dict_mem_has_key. split.
  - intros [Hn Hi]. exists d. auto.
  - intros (d' & H & Hn & Hi). injection H as <-. auto.
Qed.

(** The test of [validate_input] accepts exactly the lists of objects with
    both keys. *)
Lemma images_ok_spec (imgs : json) :
  images_ok imgs = true <-> images_with_keys imgs.
Proof.
  unfold images_with_keys.
  destruct imgs as [| | | |l|]; simpl;
    try (split; [discriminate | intros (l' & H & _); discriminate H]).
  rewrite forallb_forall. split.
  - intros H. exists l. split; [reflexivity|].
    apply Forall_forall. intros x Hx. apply image_ok_spec. auto.
  - intros (l' & Hl & Hall). injection Hl as <-.
    intros x Hx. apply image_ok_spec.
    rewrite Forall_forall in Hall. auto.
Qed.

(** The check looks at the keys only: an element whose [name] and [image]
    are numbers passes, although they are not string fields. *)
Lemma non_string_fields_accepted :
  let imgs := JList [JDict [("name", JNum 5); ("image", JNum 7)]] in
  let w := sample_world None sample_frames temp_history in
  ~ spec_images_valid imgs
  /\ validate_input w (JDict [("workflow", JDict []); ("images", imgs)])
     = Ok (JDict [("workflow", JDict []); ("images", imgs); ("comfy_org_api_key", JNull)],
           JNull).
Proof.
  intros imgs w. split; [|reflexivity].
  intros (l & Hl & Hall). injection Hl as <-.
  inversion Hall as [|x r (d & Hd & (s & Hs) & _) _]; subst.
  injection Hd as <-. discriminate Hs.
Qed.

(** C4, as the code has it: for a request object with a workflow whose
    [images] field is present and not null, validation fails with the
    invalid-images error exactly when the field is not a list of objects
    that each have the keys 'name' and 'image'; the values under the keys
    are not looked at. *)
Theorem validate_input_images (w : world) (request : list (string * json))
    (workflow imgs : json) :
  lookup "workflow" request = Some workflow ->
  workflow <> JNull ->
  lookup "images" request = Some imgs ->
  imgs <> JNull ->
  (images_with_keys imgs ->
     validate_input w (JDict request)
     = Ok (JDict [("workflow", workflow); ("images", imgs);
                  ("comfy_org_api_key", dict_get request "comfy_org_api_key" JNull)],
           JNull))
  /\ (~ images_with_keys imgs ->
        validate_input w (JDict request) = Ok (JNull, invalid_images_error)).
Proof.
  intros Hw Hwn Hi Hin.
  assert (Ew : is_none workflow = false) by (destruct workflow; simpl; congruence).
  assert (Ei : is_none imgs = false) by (destruct imgs; simpl; congruence).
  unfold validate_input. cbn [is_none bind get]. unfold dict_get.
  rewrite Hw, Hi, Ew, Ei. cbn [negb andb].
  split; intros H.
  - apply images_ok_spec in H. rewrite H. reflexivity.
  - destruct (images_ok imgs) eqn:E; [|reflexivity].
    apply images_ok_spec in E. contradiction.
Qed.

Lemma validate_input_images_witness :
  let w := sample_world None sample_frames temp_history in
  let good := JList [JDict [("name", JStr "a.png"); ("image", JNum 7)]] in
  validate_input w (JDict [("workflow", JNum 1); ("images", good)])
  = Ok (JDict [("workflow", JNum 1); ("images", good); ("comfy_org_api_key", JNull)], JNull)
  /\ validate_input w (JDict [("workflow", JNum 1); ("images", JStr "a.png")])
     = Ok (JNull, invalid_images_error).
Proof.
  intros w good. split.
  - apply (validate_input_images w [("workflow", JNum 1); ("images", good)] (JNum 1) good);
      try reflexivity; try discriminate.
    exists [JDict [("name", JStr "a.png"); ("image", JNum 7)]]. split; [reflexivity|].
    constructor; [|constructor].
    exists [("name", JStr "a.png"); ("image", JNum 7)].
    split; [reflexivity|]. split; eexists; reflexivity.
  - apply (validate_input_images w [("workflow", JNum 1); ("images", JStr "a.png")]
             (JNum 1) (JStr "a.png"));
      try reflexivity; try discriminate.
    intros (l & Hl & _). discriminate Hl.
Defined.

(** ** [handler]: what leaves it *)

(** C2 fails on the code: [validate_input] is called before the [try] of
    [handler] and calls [get] on whatever the input is, so an input that is
    a number, or a string that holds a JSON list, makes the handler raise
    [AttributeError]. *)
Theorem handler_raises_on_non_object_input (w : world) :
  handler w (JDict [("input", JNum 5)])
  = Raise (Exn AttributeError "'int' object has no attribute 'get'")
  /\ handler w (JDict [("input", JList [JNum 1; JNum 2])])
     = Raise (Exn AttributeError "'list' object has no attribute 'get'")
  /\ handler (sample_world None sample_frames temp_history) (JDict [("input", JStr "[1, 2]")])
     = Raise (Exn AttributeError "'list' object has no attribute 'get'").
Proof. repeat split. Qed.

(** ** [handler]: the outputs collected *)

(** The loop over the images skips a transient entry. *)
Lemma collect_image_skips_temp (w : world) (acc : list json) (image_info : list (string * json)) :
  lookup "type" image_info = Some (JStr "temp") ->
  collect_image w acc (JDict image_info) = Ok acc.
Proof.
  intros H. unfold collect_image. cbn [get bind]. unfold dict_get. rewrite H. reflexivity.
Qed.

(** C1 fails on the code for videos and gifs: their loops have no test of
    the type, so a transient video with a file name is fetched and
    returned, while the transient image of the same node is skipped. *)
Theorem transient_video_collected :
  handler (sample_world None sample_frames temp_history) sample_job
  = Ok (JDict [("videos",
                JList [JDict [("filename", JStr "clip.mp4");
                              ("type", JStr "base64");
                              ("data", JStr "aGVsbG8=")]])]).
Proof. vm_compute. reflexivity. Qed.

(** When every stage up to the history succeeds, the handler returns what
    the collection of the outputs gives, an exception of the collection
    being turned into an error value. *)
Lemma handler_of_completed_job (w : world) (job outputs : json) :
  job_completes w job outputs ->
  handler w job
  = try_except (b <- collect_outputs w outputs ;; Ok (build_response b))
               (fun exc => Ok (error_value (exn_str exc))).
Proof.
  intros (prompt_id & history & prompt_history & Hruns & Hkey & Hout).
  destruct Hruns as (job_input & validated & error & imgs & upload_error & workflow
                     & key & queued & H1 & H2 & H3 & H4 & H5 & H6 & H7 & H8 & H9
                     & H10 & H11 & H12 & H13 & H14).
  unfold handler.
  rewrite H1. cbn [bind]. rewrite H2. cbn [bind]. rewrite H3, H4. cbn [negb].
  rewrite H5. cbn [bind]. rewrite H6. cbn [bind]. rewrite H7.
  unfold handler_try.
  rewrite H8. cbn [bind]. rewrite H9. cbn [bind]. rewrite H10. cbn [bind].
  rewrite H11. cbn [bind]. rewrite H12. cbn [negb].
  rewrite H13. cbn [bind]. rewrite H14. cbn [bind].
  rewrite Hkey. cbn [bind]. rewrite Hout. cbn [bind]. reflexivity.
Qed.

(** The sample job runs through on the sample server, whatever the history
    the server keeps. *)
Lemma sample_job_runs (history : json) :
  job_runs (sample_world None sample_frames history) sample_job (JStr "p1") history.
Proof.
  exists (JDict [("workflow", JDict [("3", JDict [])])]).
  exists (JDict [("workflow", JDict [("3", JDict [])]); ("images", JNull);
                 ("comfy_org_api_key", JNull)]).
  exists JNull, JNull, JNull, (JDict [("3", JDict [])]), JNull.
  exists (JDict [("prompt_id", JStr "p1")]).
  repeat split.
Qed.

(** C6: when the job has run and the collection of its outputs leaves the
    three buckets empty, the handler returns the no-outputs value: the
    status "success_no_outputs" with three empty lists, and no error. *)
Theorem empty_buckets_success_no_outputs (w : world) (job outputs : json) (b : buckets) :
  job_completes w job outputs ->
  collect_outputs w outputs = Ok b ->
  images b = [] -> videos b = [] -> gifs b = [] ->
  handler w job
  = Ok (JDict [("status", JStr "success_no_outputs");
                ("images", JList []); ("videos", JList []); ("gifs", JList [])]).
Proof.
  intros Hjob Hb Hi Hv Hg.
  rewrite (handler_of_completed_job w job outputs Hjob), Hb.
  cbn [bind try_except]. unfold build_response. rewrite Hi, Hv, Hg. reflexivity.
Qed.

(** A history whose only entry is a transient image. *)
Lemma empty_buckets_success_no_outputs_witness :
  let outputs :=
    JDict [("7", JDict [("images", JList [JDict [("filename", JStr "preview.png");
                                                 ("type", JStr "temp")]])])] in
  let history := JDict [("p1", JDict [("outputs", outputs)])] in
  let w := sample_world None sample_frames history in
  collect_outputs w outputs = Ok (Buckets [] [] [])
  /\ handler w sample_job
     = Ok (JDict [("status", JStr "success_no_outputs");
                ("images", JList []); ("videos", JList []); ("gifs", JList [])]).
Proof.
  intros outputs history w. split; [reflexivity|].
  apply (empty_buckets_success_no_outputs w sample_job outputs (Buckets [] [] []));
    try reflexivity.
  exists (JStr "p1"), history, (JDict [("outputs", outputs)]).
  split; [apply sample_job_runs | split; reflexivity].
Defined.

(** C10: when the job has run and the history the server returns has no
    entry for the job identifier, or an entry without an "outputs" key,
    the handler returns the no-outputs value, the status
    "success_no_outputs" with three empty lists, and no error.  (The
    identifier is one that can be a key at all: a string, as the server
    assigns it, or another scalar.) *)
Theorem missing_history_success_no_outputs (w : world) (job prompt_id : json)
    (history : list (string * json)) :
  job_runs w job prompt_id (JDict history) ->
  hashable prompt_id = true ->
  (forall k, prompt_id = JStr k ->
     lookup k history = None
     \/ exists entry, lookup k history = Some (JDict entry) /\ lookup "outputs" entry = None) ->
  handler w job
  = Ok (JDict [("status", JStr "success_no_outputs");
                ("images", JList []); ("videos", JList []); ("gifs", JList [])]).
Proof.
  intros Hruns Hhash Hentry.
  rewrite (handler_of_completed_job w job (JDict [])); [reflexivity|].
  assert (Hkey : exists entry,
             get_key (JDict history) prompt_id (JDict []) = Ok (JDict entry)
             /\ lookup "outputs" entry = None).
  { destruct prompt_id as [| | |k| |]; try discriminate Hhash;
      try (exists []; split; reflexivity).
    cbn [get_key]. unfold dict_get.
    destruct (Hentry k eq_refl) as [Hnone | (entry & Hsome & Hout)].
    - rewrite Hnone. exists []. split; reflexivity.
    - rewrite Hsome. exists entry. split; [reflexivity | exact Hout]. }
  destruct Hkey as (entry & Hkey & Hout).
  exists prompt_id, (JDict history), (JDict entry).
  split; [exact Hruns|]. split; [exact Hkey|].
  cbn [get]. unfold dict_get. rewrite Hout. reflexivity.
Qed.

Lemma missing_history_success_no_outputs_witness :
  handler (sample_world None sample_frames (JDict [])) sample_job
  = Ok (JDict [("status", JStr "success_no_outputs");
                ("images", JList []); ("videos", JList []); ("gifs", JList [])])
  /\ handler (sample_world None sample_frames (JDict [("p1", JDict [("status", JNull)])]))
       sample_job
     = Ok (JDict [("status", JStr "success_no_outputs");
                ("images", JList []); ("videos", JList []); ("gifs", JList [])]).
Proof.
  split.
  - apply (missing_history_success_no_outputs _ sample_job (JStr "p1") []);
      [apply sample_job_runs | reflexivity |].
    intros k _. left. reflexivity.
  - apply (missing_history_success_no_outputs _ sample_job (JStr "p1")
             [("p1", JDict [("status", JNull)])]);
      [apply sample_job_runs | reflexivity |].
    intros k Hk. injection Hk as <-. right.
    exists [("status", JNull)]. split; reflexivity.
Defined.

(** ** [upload_images]: the decoding of the image data *)

(** The decoder gives the same result with the other characters removed. *)
Lemma a2b_base64_loop_filter (data : bytes) :
  forall quad_pos leftchar pads bin_data,
    a2b_base64_loop (filter kept data) quad_pos leftchar pads bin_data
    = a2b_base64_loop data quad_pos leftchar pads bin_data.
Proof.
  induction data as [|ch rest IH]; intros q l p out; [reflexivity|].
  cbn [filter]. unfold kept at 1.
  destruct (Byte.eqb ch BASE64_PAD) eqn:Epad; cbn [orb].
  - cbn [a2b_base64_loop]. rewrite Epad.
    repeat break_match; try reflexivity; apply IH.
  - destruct (table_a2b_base64 ch) as [v|] eqn:Etab.
    + cbn [a2b_base64_loop]. rewrite Epad, Etab.
      repeat break_match; apply IH.
    + cbn [a2b_base64_loop]. rewrite Epad, Etab. apply IH.
Qed.

(** The decoder fails only at the end of the input, with a quad left
    open: the alphabet characters read do not make whole quads. *)
Lemma a2b_base64_loop_error (data : bytes) :
  forall quad_pos leftchar pads bin_data e,
    0 <= quad_pos < 4 ->
    a2b_base64_loop data quad_pos leftchar pads bin_data = Raise e ->
    (quad_pos + Z.of_nat (List.length (filter counted data))) mod 4 <> 0.
Proof.
  induction data as [|ch rest IH]; intros q l p out e Hq.
  - cbn [a2b_base64_loop filter List.length]. rewrite Z.add_0_r.
    destruct (Z.eqb_spec q 0) as [->|Hne]; [discriminate|].
    intros _. rewrite Z.mod_small by lia. exact Hne.
  - cbn [a2b_base64_loop filter]. unfold counted at 1.
    destruct (Byte.eqb ch BASE64_PAD) eqn:Epad; cbn [negb andb].
    + repeat break_match; try discriminate; intros H; eapply IH; eauto.
    + destruct (table_a2b_base64 ch) as [v|] eqn:Etab.
      * cbn [List.length]. rewrite Nat2Z.inj_succ.
        repeat break_match; intros H;
          repeat match goal with
                 | E : (_ =? _) = true |- _ => apply Z.eqb_eq in E
                 | E : (_ =? _) = false |- _ => apply Z.eqb_neq in E
                 end;
          apply IH in H; try lia.
        -- subst q. replace (0 + Z.succ _) with (1 + Z.of_nat (List.length (filter counted rest))) by lia.
           exact H.
        -- subst q. replace (1 + Z.succ _) with (2 + Z.of_nat (List.length (filter counted rest))) by lia.
           exact H.
        -- subst q. replace (2 + Z.succ _) with (3 + Z.of_nat (List.length (filter counted rest))) by lia.
           exact H.
        -- assert (q = 3) by lia. subst q.
           replace (3 + Z.succ (Z.of_nat (List.length (filter counted rest))))
             with (0 + Z.of_nat (List.length (filter counted rest)) + 1 * 4) by lia.
           rewrite Z.mod_add by lia. exact H.
      * intros H. eapply IH; eauto.
Qed.

(** On a [str] of ASCII characters, [b64decode] is the decoding of the
    characters retained. *)
Lemma b64decode_retained (s : string) :
  all_ascii s = true -> b64decode s = a2b_base64 (retained s).
Proof.
  intros H. unfold b64decode, a2b_base64, retained. fold (all_ascii s). rewrite H.
  symmetry. apply a2b_base64_loop_filter.
Qed.

(** [b64decode] fails only on a [str] with a character that is not ASCII,
    or one whose retained characters fail to decode, the alphabet
    characters among them not making whole quads. *)
Lemma b64decode_error (s : string) (e : exn) :
  b64decode s = Raise e ->
  all_ascii s = false
  \/ (a2b_base64 (retained s) = Raise e /\ (alphabet_count s mod 4 <> 0)%nat).
Proof.
  intros H. destruct (all_ascii s) eqn:Ea; [right | left; reflexivity].
  split; [now rewrite <- b64decode_retained|].
  unfold b64decode in H. fold (all_ascii s) in H. rewrite Ea in H.
  apply a2b_base64_loop_error in H; [|lia].
  unfold alphabet_count.
  intros Hmod. apply H. rewrite Z.add_0_l.
  change 4 with (Z.of_nat 4). rewrite <- Nat2Z.inj_mod, Hmod. reflexivity.
Qed.

(** The decode failure is also reported for image data whose retained
    characters decode well: a character that is not ASCII makes
    [b64decode] raise before any decoding. *)
Lemma decode_failure_with_valid_padding :
  let data := String "233"%char "aGVsbG8=" in
  let w := sample_world None sample_frames temp_history in
  a2b_base64 (retained data) = Ok (list_byte_of_string "hello")
  /\ upload_image w (JDict [("name", JStr "a.png"); ("image", JStr data)])
     = Ok (Some "Failed to decode base64 for a.png: string argument should contain only ASCII characters").
Proof. split; reflexivity. Qed.

(** C9, as the code has it: image data with characters outside the
    base64 alphabet can decode without an error, these characters being
    dropped; the decode failure is reported only for data that holds a
    character that is not ASCII, or whose retained characters fail to
    decode because the alphabet characters do not make whole quads. *)
Theorem upload_decoding_lenient (w : world) (image name data : json) (msg : string) :
  (let lenient := "aGVs!bG8 =" in
   retained lenient <> list_byte_of_string lenient
   /\ b64decode lenient = Ok (list_byte_of_string "hello")
   /\ upload_image (sample_world None sample_frames temp_history)
        (JDict [("name", JStr "a.png"); ("image", JStr lenient)])
      = Ok None)
  /\ (getitem image "name" = Ok name ->
      getitem image "image" = Ok data ->
      upload_image w image = Ok (Some msg) ->
      prefix "Failed to decode" msg = true ->
      let raw_data := strip_data_uri (py_str w data) in
      all_ascii raw_data = false
      \/ ((exists e, a2b_base64 (retained raw_data) = Raise e)
          /\ (alphabet_count raw_data mod 4 <> 0)%nat)).
Proof.
  split.
  - split; [discriminate|]. split; reflexivity.
  - intros Hn Hd Hup Hpre raw_data. unfold upload_image in Hup.
    rewrite Hn, Hd in Hup. cbn [bind] in Hup. fold raw_data in Hup.
    destruct (b64decode raw_data) as [blob|e|] eqn:Edec; [|clear Hup Hpre|discriminate].
    + exfalso.
      destruct (post_upload_image w name blob) as [[r|m]|exc];
        [destruct (raise_for_status r)| |]; try discriminate;
        injection Hup as <-; discriminate Hpre.
    + destruct (b64decode_error raw_data e Edec) as [Ha | [Hr Hc]]; [left; exact Ha|].
      right. split; [exists e; exact Hr | exact Hc].
Qed.

Lemma upload_decoding_lenient_witness :
  let w := sample_world None sample_frames temp_history in
  let image := JDict [("name", JStr "a.png"); ("image", JStr "data:image/png;base64,QQ=")] in
  upload_image w image = Ok (Some "Failed to decode base64 for a.png: Incorrect padding")
  /\ (all_ascii "QQ=" = false
      \/ ((exists e, a2b_base64 (retained "QQ=") = Raise e)
          /\ (alphabet_count "QQ=" mod 4 <> 0)%nat)).
Proof.
  intros w image. split; [reflexivity|].
  apply (upload_decoding_lenient w image (JStr "a.png") (JStr "data:image/png;base64,QQ=")
           "Failed to decode base64 for a.png: Incorrect padding");
    reflexivity.
Defined.

(** The loop over the videos (and the one over the gifs, which is the
    same) has no such test: a transient entry with a file name is fetched
    and appended. *)
Lemma collect_video_keeps_temp (w : world) (acc : list json)
    (video_info : list (string * json)) (filename : json) (r : response) :
  lookup "filename" video_info = Some filename ->
  truthy filename = true ->
  lookup "type" video_info = Some (JStr "temp") ->
  get_view w filename (dict_get video_info "subfolder" (JStr "")) (JStr "temp") = Answered r ->
  raise_for_status r = Ok tt ->
  collect_video w acc (JDict video_info)
  = Ok (acc ++ [output_record filename (content r)])%list
  /\ collect_gif w acc (JDict video_info)
     = Ok (acc ++ [output_record filename (content r)])%list.
Proof.
  intros Hf Ht Hty Hview Hst.
  assert (Ef : dict_get video_info "filename" JNull = filename)
    by (unfold dict_get; now rewrite Hf).
  assert (Et : dict_get video_info "type" JNull = JStr "temp")
    by (unfold dict_get; now rewrite Hty).
  unfold collect_gif, collect_video, fetch_output_bytes.
  cbn [get bind]. rewrite Ef, Et, Ht. cbn [negb].
  rewrite Hview. cbn [request bind]. rewrite Hst. split; reflexivity.
Qed.

(** ** [handler]: the inputs it does answer *)

Lemma a2b_base64_loop_returns (data : bytes) :
  forall quad_pos leftchar pads bin_data,
    a2b_base64_loop data quad_pos leftchar pads bin_data <> Hang.
Proof.
  induction data as [|ch rest IH]; intros q l p out; cbn [a2b_base64_loop];
    repeat break_match; try discriminate; apply IH.
Qed.

Lemma b64decode_returns (s : string) : b64decode s <> Hang.
Proof.
  unfold b64decode, a2b_base64.
  destruct (forallb _ _); [apply a2b_base64_loop_returns | discriminate].
Qed.

(** On an object with both keys the loop body of [upload_images] returns,
    or passes on what [requests.post] raises. *)
Lemma upload_image_outcome (w : world) (image : json) :
  image_ok image = true ->
  (exists r, upload_image w image = Ok r)
  \/ (exists e name blob,
        upload_image w image = Raise e
        /\ getitem image "name" = Ok name
        /\ post_upload_image w name blob = UploadRaised e).
Proof.
  destruct image as [| | | | |d]; try discriminate. cbn [image_ok].
  rewrite andb_true_iff, !dict_mem_has_key. intros [[n Hn] [i Hi]].
  unfold upload_image. cbn [getitem]. rewrite Hn, Hi. cbn [bind].
  pose proof (b64decode_returns (strip_data_uri (py_str w i))) as Hdec.
  destruct (b64decode _) as [blob|e|]; [| left; eauto | contradiction].
  destruct (post_upload_image w n blob) as [[r|m]|e] eqn:Ep.
  - left. destruct (raise_for_status r); eauto.
  - left. eauto.
  - right. exists e, n, blob. auto.
Qed.

Lemma upload_images_loop_outcome (w : world) (l : list json) :
  forallb image_ok l = true ->
  (exists r, upload_images_loop w l = Ok r)
  \/ (exists e, upload_images_loop w l = Raise e /\ upload_raised w (JList l) e).
Proof.
  induction l as [|image rest IH]; cbn [forallb upload_images_loop]; [left; eauto|].
  rewrite andb_true_iff. intros [Hi Hrest].
  destruct (upload_image_outcome w image Hi) as [[[error|] ->] | (e & name & blob & -> & Hn & Hp)];
    cbn [bind].
  - left. eauto.
  - destruct (IH Hrest) as [Hok | (e & He & (l' & image' & name & blob & Hl & Hin & Hn & Hp))].
    + left. exact Hok.
    + right. exists e. split; [exact He|]. injection Hl as <-.
      exists (image :: rest), image', name, blob. repeat split; auto. now right.
  - right. exists e. split; [reflexivity|].
    exists (image :: rest), image, name, blob. repeat split; auto. now left.
Qed.

(** What [validate_input] makes of an object: an error text, or a record
    with the images of the request, which are [None] or pass the test. *)
Lemma validate_input_object (w : world) (d : list (string * json)) :
  exists validated error,
    validate_input w (JDict d) = Ok (validated, error)
    /\ (truthy error = true
        \/ exists workflow key,
             validated = JDict [("workflow", workflow);
                                ("images", dict_get d "images" JNull);
                                ("comfy_org_api_key", key)]
             /\ (dict_get d "images" JNull = JNull
                 \/ images_ok (dict_get d "images" JNull) = true)).
Proof.
  unfold validate_input. cbn [is_none bind get].
  destruct (is_none (dict_get d "workflow" JNull)); [eexists _, _; split; [reflexivity | now left]|].
  destruct (dict_get d "images" JNull) as [| | | | |] eqn:Ei; cbn [is_none negb andb];
    try (eexists _, _; split; [reflexivity | right; eexists _, _; split; [reflexivity | now left]]; fail);
    match goal with
    | |- context [images_ok ?x] =>
        destruct (images_ok x) eqn:Eok; cbn [negb];
        eexists _, _; (split; [reflexivity|]);
        [right; eexists _, _; split; [reflexivity | now right] | now left]
    end.
Qed.

(** The images of a validated request: [upload_images] returns on them,
    or passes on what [requests.post] raises for one of them. *)
Lemma upload_images_outcome (w : world) (imgs : json) :
  imgs = JNull \/ images_ok imgs = true ->
  (exists r, upload_images w imgs = Ok r)
  \/ (exists e, upload_images w imgs = Raise e /\ upload_raised w imgs e).
Proof.
  intros [-> | Hok]; [left; now exists JNull|].
  destruct imgs as [| | | |l|]; try discriminate. unfold upload_images.
  destruct (negb (truthy (JList l))); [left; eauto|]. cbn [iter bind].
  now apply upload_images_loop_outcome.
Qed.

(** X1: for an input that is an object, the only exception that leaves
    [handler] is one that [requests.post] raises for the name of one of
    the images (it is called before the [try]); nothing else makes the
    handler raise. *)
Theorem handler_raises_only_from_upload (w : world) (job : json)
    (d : list (string * json)) (e : exn) :
  get job "input" JNull = Ok (JDict d) ->
  handler w job = Raise e ->
  upload_raised w (dict_get d "images" JNull) e.
Proof.
  intros Hin. unfold handler. rewrite Hin. cbn [bind].
  destruct (validate_input_object w d) as (validated & error & -> & Hv). cbn [bind].
  destruct Hv as [-> | (workflow & key & -> & Himgs)]; [discriminate|].
  destruct (truthy error); [discriminate|].
  destruct (check_server w); cbn [negb]; [|discriminate].
  change (get (JDict [("workflow", workflow); ("images", dict_get d "images" JNull);
                      ("comfy_org_api_key", key)])
              "images" JNull) with (Ok (dict_get d "images" JNull)).
  cbn [bind].
  destruct (upload_images_outcome w _ Himgs) as [[r ->] | (e' & -> & Hup)]; cbn [bind].
  - destruct (truthy r); [discriminate|].
    destruct (handler_try _ _ _); discriminate.
  - intros H. injection H as <-. exact Hup.
Qed.

(** * Further properties *)

(** ** [strip_data_uri] and the image data *)

Lemma contains_false (c : ascii) (data : string) :
  ~ In c (list_ascii_of_string data) -> contains c data = false.
Proof.
  intros H. destruct (contains c data) eqn:E; [|reflexivity].
  apply contains_In in E. contradiction.
Qed.

Lemma strip_data_uri_after (pre rest : string) :
  contains comma pre = false ->
  strip_data_uri (pre ++ String comma rest) = rest.
Proof.
  intros Hno. unfold strip_data_uri.
  assert (Hc : contains comma (pre ++ String comma rest) = true
               /\ split1 comma (pre ++ String comma rest) = [pre; rest]).
  { induction pre as [|x p IH]; cbn [append contains split1].
    - rewrite Ascii.eqb_refl. split; reflexivity.
    - cbn [contains] in Hno. destruct (Ascii.eqb x comma); [discriminate|].
      destruct (IH Hno) as [H1 H2]. rewrite H1, H2. split; reflexivity. }
  destruct Hc as [-> ->]. reflexivity.
Qed.

(** X2: what follows a comma-free prefix and a comma is the result, commas
    of its own included. *)
Theorem strip_data_uri_prefix (pre rest : string) :
  ~ In comma (list_ascii_of_string pre) ->
  strip_data_uri (pre ++ String comma rest) = rest.
Proof.
  intros Hpre. apply strip_data_uri_after. now apply contains_false.
Qed.

Lemma strip_data_uri_prefix_witness :
  strip_data_uri ("data:image/png;base64" ++ String comma "aGVs,bG8=") = "aGVs,bG8=".
Proof.
  apply (strip_data_uri_prefix "data:image/png;base64" "aGVs,bG8=").
  simpl. intros H. repeat (destruct H as [H|H]; [discriminate H|]). exact H.
Defined.

(** X3: an image given as a data URI (a prefix without a comma, a comma,
    the data) is uploaded as the same image given bare. *)
Theorem upload_image_data_uri (w : world) (name : json) (pre data : string) :
  ~ In comma (list_ascii_of_string pre) ->
  ~ In comma (list_ascii_of_string data) ->
  upload_image w (JDict [("name", name); ("image", JStr (pre ++ String comma data))])
  = upload_image w (JDict [("name", name); ("image", JStr data)]).
Proof.
  intros Hpre Hdata. apply contains_false in Hpre. apply contains_false in Hdata.
  unfold upload_image.
  change (getitem (JDict [("name", name); ("image", JStr (pre ++ String comma data))]) "name")
    with (Ok name).
  change (getitem (JDict [("name", name); ("image", JStr (pre ++ String comma data))]) "image")
    with (Ok (JStr (pre ++ String comma data))).
  change (getitem (JDict [("name", name); ("image", JStr data)]) "name") with (Ok name).
  change (getitem (JDict [("name", name); ("image", JStr data)]) "image")
    with (Ok (JStr data)).
  cbn [bind py_str].
  rewrite (strip_data_uri_after pre data Hpre).
  unfold strip_data_uri at 1. rewrite Hdata. reflexivity.
Qed.

Lemma upload_image_data_uri_witness :
  let w := sample_world None sample_frames temp_history in
  upload_image w (JDict [("name", JStr "a.png");
                         ("image", JStr ("data:image/png;base64" ++ String comma "aGVsbG8="))])
  = upload_image w (JDict [("name", JStr "a.png"); ("image", JStr "aGVsbG8=")]).
Proof.
  intros w.
  apply (upload_image_data_uri w (JStr "a.png") "data:image/png;base64" "aGVsbG8=");
    simpl; intros H; repeat (destruct H as [H|H]; [discriminate H|]); exact H.
Defined.

(** ** Base64: encoding, then decoding *)

Lemma alphabet_checked : forallb alphabet_check (seq 0 64) = true.
Proof. vm_compute. reflexivity. Qed.

Lemma quads_checked :
  forallb (fun x => forallb (quad_check x) (seq 0 256)) (seq 0 256) = true.
Proof. vm_compute. reflexivity. Qed.

(** A character of the encoding is ASCII, is neither the pad nor a comma,
    and stands for the six low bits of the value encoded. *)
Lemma b2a_spec (v : Z) :
  is_ascii (b2a v) = true
  /\ Byte.eqb (byte_of_ascii (b2a v)) BASE64_PAD = false
  /\ Ascii.eqb (b2a v) comma = false
  /\ table_a2b_base64 (byte_of_ascii (b2a v)) = Some (Z.land v 63).
Proof.
  change (b2a v) with (b2a_at (Z.to_nat (Z.land v 63))).
  assert (Hr : 0 <= Z.land v 63 < 64).
  { change 63 with (Z.ones 6). rewrite Z.land_ones by lia.
    change (2 ^ 6) with 64. apply Z.mod_pos_bound. lia. }
  pose proof alphabet_checked as H. rewrite forallb_forall in H.
  specialize (H (Z.to_nat (Z.land v 63))).
  assert (Hin : In (Z.to_nat (Z.land v 63)) (seq 0 64)) by (apply in_seq; lia).
  specialize (H Hin). unfold alphabet_check in H.
  rewrite !andb_true_iff, !negb_true_iff in H.
  destruct H as [[[H1 H2] H3] H4].
  repeat split; auto.
  destruct (table_a2b_base64 _) as [t|]; [|discriminate].
  apply Z.eqb_eq in H4. rewrite H4, Z2Nat.id by lia. reflexivity.
Qed.

Lemma Z_of_byte_range (a : byte) : 0 <= Z_of_byte a < 256.
Proof.
  unfold Z_of_byte. pose proof (Byte.to_N_bounded a). lia.
Qed.

Lemma byte_of_Z_mod (z : Z) (a : byte) :
  z mod 256 = Z_of_byte a -> byte_of_Z z = a.
Proof.
  intros H. unfold byte_of_Z. rewrite H. unfold Z_of_byte.
  rewrite N2Z.id, Byte.of_to_N. reflexivity.
Qed.

(** The facts on the bits of two bytes that follow each other. *)
Lemma quad_spec (a b : byte) :
  quad_check (Z.to_nat (Z_of_byte a)) (Z.to_nat (Z_of_byte b)) = true.
Proof.
  pose proof quads_checked as H. rewrite forallb_forall in H.
  pose proof (Z_of_byte_range a). pose proof (Z_of_byte_range b).
  assert (Ha : In (Z.to_nat (Z_of_byte a)) (seq 0 256)) by (apply in_seq; lia).
  assert (Hb : In (Z.to_nat (Z_of_byte b)) (seq 0 256)) by (apply in_seq; lia).
  specialize (H _ Ha). rewrite forallb_forall in H. exact (H _ Hb).
Qed.

Section DecodeSteps.

Variables (ch : byte) (v : Z) (rest : bytes) (l p : Z) (out : bytes).
Hypothesis Hpad : Byte.eqb ch BASE64_PAD = false.
Hypothesis Htab : table_a2b_base64 ch = Some v.

Lemma step_quad0 :
  a2b_base64_loop (ch :: rest) 0 l p out = a2b_base64_loop rest 1 v 0 out.
Proof. cbn [a2b_base64_loop]. rewrite Hpad, Htab. reflexivity. Qed.

Lemma step_quad1 :
  a2b_base64_loop (ch :: rest) 1 l p out
  = a2b_base64_loop rest 2 (Z.land v 15) 0
      (out ++ [byte_of_Z (Z.lor (Z.shiftl l 2) (Z.shiftr v 4))])%list.
Proof. cbn [a2b_base64_loop]. rewrite Hpad, Htab. reflexivity. Qed.

Lemma step_quad2 :
  a2b_base64_loop (ch :: rest) 2 l p out
  = a2b_base64_loop rest 3 (Z.land v 3) 0
      (out ++ [byte_of_Z (Z.lor (Z.shiftl l 4) (Z.shiftr v 2))])%list.
Proof. cbn [a2b_base64_loop]. rewrite Hpad, Htab. reflexivity. Qed.

Lemma step_quad3 :
  a2b_base64_loop (ch :: rest) 3 l p out
  = a2b_base64_loop rest 0 0 0 (out ++ [byte_of_Z (Z.lor (Z.shiftl l 6) v)])%list.
Proof. cbn [a2b_base64_loop]. rewrite Hpad, Htab. reflexivity. Qed.

End DecodeSteps.

Lemma quad_facts (a b : byte) :
  let A := Z_of_byte a in
  let B := Z_of_byte b in
  let v1 := Z.land (Z.shiftr A 2) 63 in
  let v2 := Z.land (Z.lor (Z.shiftl A 4) (Z.shiftr B 4)) 63 in
  let v3 := Z.land (Z.lor (Z.shiftl A 2) (Z.shiftr B 6)) 63 in
  let v4 := Z.land B 63 in
  (Z.lor (Z.shiftl v1 2) (Z.shiftr v2 4)) mod 256 = A
  /\ Z.land v2 15 = B / 16
  /\ Z.shiftr v3 2 = Z.land A 15
  /\ (Z.lor (Z.shiftl (A / 16) 4) (Z.land A 15)) mod 256 = A
  /\ Z.land v3 3 = B / 64
  /\ (Z.lor (Z.shiftl (B / 64) 6) v4) mod 256 = B
  /\ (Z.lor (Z.shiftl v1 2) (Z.shiftr (Z.land (Z.shiftl A 4) 63) 4)) mod 256 = A
  /\ Z.shiftr (Z.land (Z.shiftl A 2) 63) 2 = Z.land A 15.
Proof.
  intros A B v1 v2 v3 v4.
  pose proof (quad_spec a b) as H. unfold quad_check in H.
  pose proof (Z_of_byte_range a). pose proof (Z_of_byte_range b).
  rewrite !Z2Nat.id in H by lia.
  rewrite !andb_true_iff, !Z.eqb_eq in H.
  fold A B in H. fold v1 v2 v3 v4 in H. tauto.
Qed.

(** Four characters of the encoding decode to the three bytes encoded. *)
Lemma decode_quad (a b c : byte) (rest out : bytes) (l p : Z) :
  let A := Z_of_byte a in
  let B := Z_of_byte b in
  let C := Z_of_byte c in
  a2b_base64_loop
    (byte_of_ascii (b2a (Z.shiftr A 2))
     :: byte_of_ascii (b2a (Z.lor (Z.shiftl A 4) (Z.shiftr B 4)))
     :: byte_of_ascii (b2a (Z.lor (Z.shiftl B 2) (Z.shiftr C 6)))
     :: byte_of_ascii (b2a C) :: rest) 0 l p out
  = a2b_base64_loop rest 0 0 0 (out ++ [a; b; c])%list.
Proof.
  intros A B C.
  destruct (b2a_spec (Z.shiftr A 2)) as (_ & P1 & _ & T1).
  destruct (b2a_spec (Z.lor (Z.shiftl A 4) (Z.shiftr B 4))) as (_ & P2 & _ & T2).
  destruct (b2a_spec (Z.lor (Z.shiftl B 2) (Z.shiftr C 6))) as (_ & P3 & _ & T3).
  destruct (b2a_spec C) as (_ & P4 & _ & T4).
  rewrite (step_quad0 _ _ _ l p out P1 T1).
  rewrite (step_quad1 _ _ _ _ 0 out P2 T2).
  rewrite (step_quad2 _ _ _ _ 0 _ P3 T3).
  rewrite (step_quad3 _ _ _ _ 0 _ P4 T4).
  destruct (quad_facts a b) as (F1 & F2 & _ & F4 & _).
  destruct (quad_facts b c) as (_ & G2 & G3 & G4 & G5 & G6 & _).
  fold A B in F1, F2, F4. fold B C in G2, G3, G4, G5, G6.
  rewrite (byte_of_Z_mod _ a F1).
  rewrite F2, G3, (byte_of_Z_mod _ b G4).
  rewrite G5, (byte_of_Z_mod _ c G6).
  rewrite <- !app_assoc. reflexivity.
Qed.

(** The short quads at the end of an encoding, of one byte and of two. *)
Lemma decode_last1 (a : byte) (out : bytes) (l p : Z) :
  let A := Z_of_byte a in
  a2b_base64_loop
    (byte_of_ascii (b2a (Z.shiftr A 2)) :: byte_of_ascii (b2a (Z.shiftl A 4))
     :: list_byte_of_string "==") 0 l p out
  = Ok (out ++ [a])%list.
Proof.
  intros A.
  destruct (b2a_spec (Z.shiftr A 2)) as (_ & P1 & _ & T1).
  destruct (b2a_spec (Z.shiftl A 4)) as (_ & P2 & _ & T2).
  rewrite (step_quad0 _ _ _ l p out P1 T1).
  rewrite (step_quad1 _ _ _ _ 0 out P2 T2).
  destruct (quad_facts a a) as (_ & _ & _ & _ & _ & _ & F7 & _).
  fold A in F7. rewrite (byte_of_Z_mod _ a F7). reflexivity.
Qed.

Lemma decode_last2 (a b : byte) (out : bytes) (l p : Z) :
  let A := Z_of_byte a in
  let B := Z_of_byte b in
  a2b_base64_loop
    (byte_of_ascii (b2a (Z.shiftr A 2))
     :: byte_of_ascii (b2a (Z.lor (Z.shiftl A 4) (Z.shiftr B 4)))
     :: byte_of_ascii (b2a (Z.shiftl B 2))
     :: list_byte_of_string "=") 0 l p out
  = Ok (out ++ [a; b])%list.
Proof.
  intros A B.
  destruct (b2a_spec (Z.shiftr A 2)) as (_ & P1 & _ & T1).
  destruct (b2a_spec (Z.lor (Z.shiftl A 4) (Z.shiftr B 4))) as (_ & P2 & _ & T2).
  destruct (b2a_spec (Z.shiftl B 2)) as (_ & P3 & _ & T3).
  rewrite (step_quad0 _ _ _ l p out P1 T1).
  rewrite (step_quad1 _ _ _ _ 0 out P2 T2).
  rewrite (step_quad2 _ _ _ _ 0 _ P3 T3).
  destruct (quad_facts a b) as (F1 & F2 & _).
  destruct (quad_facts b b) as (_ & _ & _ & G4 & _ & _ & _ & G8).
  fold A B in F1, F2. fold B in G4, G8.
  rewrite (byte_of_Z_mod _ a F1).
  rewrite F2, G8, (byte_of_Z_mod _ b G4).
  rewrite <- !app_assoc. reflexivity.
Qed.

Lemma list_byte_of_string_cons (c : ascii) (s : string) :
  list_byte_of_string (String c s) = byte_of_ascii c :: list_byte_of_string s.
Proof. reflexivity. Qed.

(** An encoding is ASCII, has no comma, and decodes to the bytes encoded. *)
Lemma b64encode_props (n : nat) :
  forall data : bytes,
    (List.length data <= n)%nat ->
    all_ascii (b64encode data) = true
    /\ contains comma (b64encode data) = false
    /\ forall out, a2b_base64_loop (list_byte_of_string (b64encode data)) 0 0 0 out
                   = Ok (out ++ data)%list.
Proof.
  unfold all_ascii.
  induction n as [|n IH]; intros data Hlen.
  - destruct data; [|simpl in Hlen; lia].
    repeat split. intros out. cbn. now rewrite app_nil_r.
  - destruct data as [|a [|b [|c r]]].
    + repeat split. intros out. cbn. now rewrite app_nil_r.
    + cbn [b64encode]. cbv zeta.
      destruct (b2a_spec (Z.shiftr (Z_of_byte a) 2)) as (A1 & _ & C1 & _).
      destruct (b2a_spec (Z.shiftl (Z_of_byte a) 4)) as (A2 & _ & C2 & _).
      split; [|split].
      * cbn [list_ascii_of_string forallb]. rewrite A1, A2. reflexivity.
      * cbn [contains]. rewrite C1, C2. reflexivity.
      * intros out. rewrite !list_byte_of_string_cons. apply decode_last1.
    + cbn [b64encode]. cbv zeta.
      destruct (b2a_spec (Z.shiftr (Z_of_byte a) 2)) as (A1 & _ & C1 & _).
      destruct (b2a_spec (Z.lor (Z.shiftl (Z_of_byte a) 4) (Z.shiftr (Z_of_byte b) 4)))
        as (A2 & _ & C2 & _).
      destruct (b2a_spec (Z.shiftl (Z_of_byte b) 2)) as (A3 & _ & C3 & _).
      split; [|split].
      * cbn [list_ascii_of_string forallb]. rewrite A1, A2, A3. reflexivity.
      * cbn [contains]. rewrite C1, C2, C3. reflexivity.
      * intros out. rewrite !list_byte_of_string_cons. apply decode_last2.
    + cbn [b64encode]. cbv zeta.
      destruct (b2a_spec (Z.shiftr (Z_of_byte a) 2)) as (A1 & _ & C1 & _).
      destruct (b2a_spec (Z.lor (Z.shiftl (Z_of_byte a) 4) (Z.shiftr (Z_of_byte b) 4)))
        as (A2 & _ & C2 & _).
      destruct (b2a_spec (Z.lor (Z.shiftl (Z_of_byte b) 2) (Z.shiftr (Z_of_byte c) 6)))
        as (A3 & _ & C3 & _).
      destruct (b2a_spec (Z_of_byte c)) as (A4 & _ & C4 & _).
      destruct (IH r) as (Ha & Hc & Hd); [simpl in Hlen; lia|].
      split; [|split].
      * cbn [list_ascii_of_string forallb]. rewrite A1, A2, A3, A4. exact Ha.
      * cbn [contains]. rewrite C1, C2, C3, C4. exact Hc.
      * intros out. rewrite !list_byte_of_string_cons, decode_quad, Hd.
        rewrite <- app_assoc. reflexivity.
Qed.

(** X4: round trip: what [handler] encodes for a record, [upload_images]
    decodes to the same bytes, the stripping of a data-URI prefix leaving
    an encoding as it is. *)
Theorem b64_round_trip (data : bytes) :
  strip_data_uri (b64encode data) = b64encode data
  /\ b64decode (strip_data_uri (b64encode data)) = Ok data.
Proof.
  destruct (b64encode_props (List.length data) data (le_n _)) as (Ha & Hc & Hd).
  assert (Hs : strip_data_uri (b64encode data) = b64encode data).
  { unfold strip_data_uri. now rewrite Hc. }
  split; [exact Hs|]. rewrite Hs.
  unfold b64decode. fold (all_ascii (b64encode data)). rewrite Ha.
  unfold a2b_base64. rewrite Hd. reflexivity.
Qed.

(** ** [validate_input] and the first stages of [handler] *)

(** X5: an input given as a JSON string is handled as the object it
    encodes. *)
Theorem handler_string_input (w : world) (job job' : json) (s : string)
    (d : list (string * json)) :
  get job "input" JNull = Ok (JStr s) ->
  json_loads w s = inl (JDict d) ->
  get job' "input" JNull = Ok (JDict d) ->
  validate_input w (JStr s) = validate_input w (JDict d)
  /\ handler w job = handler w job'.
Proof.
  intros Hj Hl Hj'.
  assert (Hv : validate_input w (JStr s) = validate_input w (JDict d)).
  { unfold validate_input. cbn [is_none]. rewrite Hl. reflexivity. }
  split; [exact Hv|]. unfold handler. rewrite Hj, Hj'. cbn [bind]. rewrite Hv. reflexivity.
Qed.

(** X6: the errors of validation are what [handler] returns, whatever the
    server does: no input, a string that is not JSON, an object without a
    workflow (or with a null one, the images not being looked at). *)
Theorem handler_validation_errors (w : world) (job : json) :
  (get job "input" JNull = Ok JNull ->
     handler w job = Ok (error_value "Please provide input"))
  /\ (forall s msg,
        get job "input" JNull = Ok (JStr s) ->
        json_loads w s = inr (Exn JSONDecodeError msg) ->
        handler w job = Ok (error_value "Invalid JSON format in input"))
  /\ (forall d,
        get job "input" JNull = Ok (JDict d) ->
        dict_get d "workflow" JNull = JNull ->
        handler w job = Ok (error_value "Missing 'workflow' parameter")).
Proof.
  unfold handler. split; [|split].
  - intros ->. reflexivity.
  - intros s msg -> Hl. cbn [bind]. unfold validate_input. cbn [is_none].
    rewrite Hl. reflexivity.
  - intros d -> Hw. cbn [bind]. unfold validate_input. cbn [is_none get bind].
    rewrite Hw. reflexivity.
Qed.

Lemma handler_validation_errors_witness :
  let w := sample_world None sample_frames temp_history in
  handler w (JDict []) = Ok (error_value "Please provide input")
  /\ handler w (JDict [("input", JStr "{workflow")])
     = Ok (error_value "Invalid JSON format in input")
  /\ handler w (JDict [("input", JDict [("workflow", JNull); ("images", JNum 3)])])
     = Ok (error_value "Missing 'workflow' parameter").
Proof.
  intros w. split; [|split].
  - apply (handler_validation_errors w (JDict [])). reflexivity.
  - apply (handler_validation_errors w (JDict [("input", JStr "{workflow")]))
      with (s := "{workflow") (msg := "Expecting value: line 1 column 1 (char 0)");
      reflexivity.
  - apply (handler_validation_errors w
             (JDict [("input", JDict [("workflow", JNull); ("images", JNum 3)])]))
      with (d := [("workflow", JNull); ("images", JNum 3)]);
      reflexivity.
Defined.

(** X7: a job whose input passes validation gets the not-reachable error
    when none of the [CHECK_RETRIES] probes is answered with status 200
    (in particular when [CHECK_RETRIES] is zero or negative), all the
    probes having been made. *)
Theorem handler_server_unreachable (w : world) (job job_input validated error : json) :
  get job "input" JNull = Ok job_input ->
  validate_input w job_input = Ok (validated, error) ->
  truthy error = false ->
  (forall k, (k < Z.to_nat (CHECK_RETRIES w))%nat -> probe_ok (get_root w k) = false) ->
  check_server_run w = (false, Z.to_nat (CHECK_RETRIES w))
  /\ handler w job
     = Ok (error_value ("ComfyUI server (" ++ COMFY_HOST w ++ ") not reachable.")).
Proof.
  intros Hj Hv He Hnone.
  assert (Hrun : check_server_run w = (false, Z.to_nat (CHECK_RETRIES w))).
  { unfold check_server_run.
    destruct (check_server_loop_spec w (Z.to_nat (CHECK_RETRIES w)) 0)
      as [(k & Hk & Hok & _) | (_ & Hrun)]; [|exact Hrun].
    rewrite Hnone in Hok by lia. discriminate. }
  split; [exact Hrun|].
  unfold handler, check_server. rewrite Hj. cbn [bind]. rewrite Hv. cbn [bind].
  rewrite He, Hrun. reflexivity.
Qed.

Lemma handler_server_unreachable_witness :
  let w0 := sample_world None sample_frames temp_history in
  let w :=
    {| COMFY_HOST := COMFY_HOST w0; CHECK_RETRIES := 2;
       COMFY_ORG_API_KEY := COMFY_ORG_API_KEY w0; json_loads := json_loads w0;
       repr := repr w0; uuid4 := uuid4 w0; get_root := get_root w0;
       post_upload_image := post_upload_image w0; post_prompt := post_prompt w0;
       ws_connect := ws_connect w0; ws_frames := ws_frames w0;
       get_history := get_history w0; get_view := get_view w0 |} in
  check_server_run w = (false, 2%nat)
  /\ handler w sample_job
     = Ok (error_value "ComfyUI server (127.0.0.1:8188) not reachable.").
Proof.
  intros w0 w.
  apply (handler_server_unreachable w sample_job
           (JDict [("workflow", JDict [("3", JDict [])])])
           (JDict [("workflow", JDict [("3", JDict [])]); ("images", JNull);
                   ("comfy_org_api_key", JNull)])
           JNull); try reflexivity.
  intros k Hk. change (Z.to_nat (CHECK_RETRIES w)) with 2%nat in Hk.
  destruct k as [|[|k]]; [reflexivity | reflexivity | lia].
Defined.

(** ** [upload_images] *)

(** X8: the uploads stop at the first image that fails, with its error,
    whatever follows it; when every image is uploaded there is no error. *)
Theorem upload_images_first_failure (w : world) (pre post : list json) (image : json)
    (error : string) :
  Forall (fun i => upload_image w i = Ok None) pre ->
  (upload_image w image = Ok (Some error) ->
     upload_images w (JList (pre ++ image :: post)) = Ok (JStr error))
  /\ upload_images w (JList pre) = Ok JNull.
Proof.
  intros Hpre.
  assert (Hloop : forall rest, upload_images_loop w (pre ++ rest) = upload_images_loop w rest).
  { intros rest. induction Hpre as [|i pre Hi _ IH]; [reflexivity|].
    cbn [app upload_images_loop]. rewrite Hi. cbn [bind]. exact IH. }
  split.
  - intros Himage. unfold upload_images.
    assert (Ht : truthy (JList (pre ++ image :: post)) = true)
      by (destruct pre; reflexivity).
    rewrite Ht. cbn [negb iter bind]. rewrite Hloop.
    cbn [upload_images_loop]. rewrite Himage. reflexivity.
  - unfold upload_images. destruct (negb (truthy (JList pre))); [reflexivity|].
    cbn [iter bind]. rewrite <- (app_nil_r pre), Hloop. reflexivity.
Qed.

Lemma upload_images_first_failure_witness :
  let w := sample_world None sample_frames temp_history in
  let good := JDict [("name", JStr "a.png"); ("image", JStr "aGVsbG8=")] in
  let bad := JDict [("name", JStr "b.png"); ("image", JStr "QQ=")] in
  upload_images w (JList [good; bad; JNum 7])
  = Ok (JStr "Failed to decode base64 for b.png: Incorrect padding")
  /\ upload_images w (JList [good]) = Ok JNull.
Proof.
  intros w good bad. split.
  - apply (upload_images_first_failure w [good] [JNum 7] bad
             "Failed to decode base64 for b.png: Incorrect padding");
      [constructor; [reflexivity | constructor] | reflexivity].
  - apply (upload_images_first_failure w [good] [] bad ""); constructor; [reflexivity | constructor].
Defined.

(** ** [queue_workflow] and the [try] block of [handler] *)

Lemma queue_workflow_answer (w : world) (workflow : json) (client_id : string)
    (comfy_org_api_key : json) :
  queue_workflow w workflow client_id comfy_org_api_key
  = queue_answer (post_prompt w (prompt_payload w workflow client_id comfy_org_api_key)).
Proof.
  unfold queue_workflow, queue_answer, prompt_payload.
  destruct (truthy (py_or comfy_org_api_key (COMFY_ORG_API_KEY w))); reflexivity.
Qed.

(** Once the uploads are done, [handler] is its [try] block with every
    exception turned into an error value. *)
Lemma handler_of_uploaded_job (w : world) (job validated : json) :
  job_uploaded w job validated ->
  handler w job
  = try_except (handler_try w validated (uuid4 w))
               (fun exc => Ok (error_value (exn_str exc))).
Proof.
  intros (job_input & error & imgs & upload_error & H1 & H2 & H3 & H4 & H5 & H6 & H7).
  unfold handler.
  rewrite H1. cbn [bind]. rewrite H2. cbn [bind]. rewrite H3, H4. cbn [negb].
  rewrite H5. cbn [bind]. rewrite H6. cbn [bind]. rewrite H7. reflexivity.
Qed.

(** Once the workflow is queued, what is left is the wait, the history
    and the collection. *)
Lemma handler_of_queued_job (w : world) (job prompt_id : json) :
  job_queued w job prompt_id ->
  handler w job
  = try_except
      (_ <- fst (wait_for_completion w prompt_id (uuid4 w)) ;;
       history <- fetch_history w prompt_id ;;
       prompt_history <- get_key history prompt_id (JDict []) ;;
       outputs <- get prompt_history "outputs" (JDict []) ;;
       b <- collect_outputs w outputs ;;
       Ok (build_response b))
      (fun exc => Ok (error_value (exn_str exc))).
Proof.
  intros (validated & workflow & key & queued & Hup & H1 & H2 & H3 & H4 & H5).
  rewrite (handler_of_uploaded_job w job validated Hup). unfold handler_try.
  rewrite H1. cbn [bind]. rewrite H2. cbn [bind]. rewrite H3. cbn [bind].
  rewrite H4. cbn [bind]. rewrite H5. reflexivity.
Qed.

(** The sample job is uploaded and queued on the sample server, whatever
    the handshake, the frames and the history. *)
Lemma sample_job_queued (connect : option exn) (frames : list recv_outcome) (history : json) :
  job_queued (sample_world connect frames history) sample_job (JStr "p1").
Proof.
  exists (JDict [("workflow", JDict [("3", JDict [])]); ("images", JNull);
                 ("comfy_org_api_key", JNull)]).
  exists (JDict [("3", JDict [])]), JNull, (JDict [("prompt_id", JStr "p1")]).
  split; [|repeat split].
  exists (JDict [("workflow", JDict [("3", JDict [])])]), JNull, JNull, JNull.
  repeat split.
Qed.

(** X9: the request [queue_workflow] posts holds the workflow and the
    client identifier; it holds an API key exactly when the request or
    the environment gives one, the key of the request going first. *)
Theorem queue_workflow_payload (w : world) (workflow : json) (client_id : string)
    (comfy_org_api_key : json) :
  exists payload,
    queue_workflow w workflow client_id comfy_org_api_key
    = queue_answer (post_prompt w (JDict payload))
    /\ lookup "prompt" payload = Some workflow
    /\ lookup "client_id" payload = Some (JStr client_id)
    /\ lookup "extra_data" payload
       = if truthy comfy_org_api_key
         then Some (JDict [("api_key_comfy_org", comfy_org_api_key)])
         else if truthy (COMFY_ORG_API_KEY w)
              then Some (JDict [("api_key_comfy_org", COMFY_ORG_API_KEY w)])
              else None.
Proof.
  rewrite queue_workflow_answer. unfold prompt_payload, py_or.
  destruct (truthy comfy_org_api_key) eqn:Ek.
  - rewrite Ek. eexists. repeat split.
  - destruct (truthy (COMFY_ORG_API_KEY w)) eqn:Ee; eexists; repeat split.
Qed.

(** X10: when the server answers the submission with status 400, the job
    fails with the text of the answer after "Workflow validation
    failed: "; with another status from 400 to 599, with the HTTP error. *)
Theorem handler_workflow_rejected (w : world) (job validated workflow key : json)
    (r : response) :
  job_uploaded w job validated ->
  getitem validated "workflow" = Ok workflow ->
  get validated "comfy_org_api_key" JNull = Ok key ->
  post_prompt w (prompt_payload w workflow (uuid4 w) key) = Answered r ->
  (status_code r = 400 ->
     handler w job = Ok (error_value ("Workflow validation failed: " ++ text r)))
  /\ (forall e, status_code r <> 400 -> raise_for_status r = Raise e ->
        handler w job = Ok (error_value (exn_str e))).
Proof.
  intros Hup Hw Hk Hpost.
  rewrite (handler_of_uploaded_job w job validated Hup). unfold handler_try.
  rewrite Hw. cbn [bind]. rewrite Hk. cbn [bind].
  rewrite queue_workflow_answer, Hpost. unfold queue_answer. cbn [request bind].
  split.
  - intros ->. reflexivity.
  - intros e Hne He. apply Z.eqb_neq in Hne. rewrite Hne, He. reflexivity.
Qed.

Lemma handler_workflow_rejected_witness :
  let w := with_prompt (sample_world None sample_frames temp_history)
             (fun _ => Answered rejection) in
  handler w sample_job
  = Ok (error_value "Workflow validation failed: invalid prompt: node 3 has no class_type").
Proof.
  intros w.
  apply (handler_workflow_rejected w sample_job
           (JDict [("workflow", JDict [("3", JDict [])]); ("images", JNull);
                   ("comfy_org_api_key", JNull)])
           (JDict [("3", JDict [])]) JNull rejection); try reflexivity.
  exists (JDict [("workflow", JDict [("3", JDict [])])]), JNull, JNull, JNull.
  repeat split.
Defined.

Lemma handler_string_input_witness :
  let w := with_loads (sample_world None sample_frames temp_history)
             (loads_table request_documents) in
  validate_input w (JStr "request")
  = validate_input w (JDict [("workflow", JDict [("3", JDict [])])])
  /\ handler w (JDict [("input", JStr "request")]) = handler w sample_job.
Proof.
  intros w.
  apply (handler_string_input w (JDict [("input", JStr "request")]) sample_job
           "request" [("workflow", JDict [("3", JDict [])])]); reflexivity.
Defined.

(** X11: when the answer to the submission has no job identifier (none, or
    an empty or null one), the job fails with the answer quoted. *)
Theorem handler_missing_prompt_id (w : world) (job validated workflow key queued
    prompt_id : json) :
  job_uploaded w job validated ->
  getitem validated "workflow" = Ok workflow ->
  get validated "comfy_org_api_key" JNull = Ok key ->
  queue_workflow w workflow (uuid4 w) key = Ok queued ->
  get queued "prompt_id" JNull = Ok prompt_id ->
  truthy prompt_id = false ->
  handler w job
  = Ok (error_value ("Missing prompt_id in queue response: " ++ py_str w queued)).
Proof.
  intros Hup Hw Hk Hq Hp Ht.
  rewrite (handler_of_uploaded_job w job validated Hup). unfold handler_try.
  rewrite Hw. cbn [bind]. rewrite Hk. cbn [bind]. rewrite Hq. cbn [bind].
  rewrite Hp. cbn [bind]. rewrite Ht. reflexivity.
Qed.

Lemma handler_missing_prompt_id_witness :
  let w := with_prompt (sample_world None sample_frames temp_history)
             (fun _ => Answered (ok_response (JDict [("number", JNum 1)]) [])) in
  handler w sample_job
  = Ok (error_value "Missing prompt_id in queue response: <repr>").
Proof.
  intros w.
  apply (handler_missing_prompt_id w sample_job
           (JDict [("workflow", JDict [("3", JDict [])]); ("images", JNull);
                   ("comfy_org_api_key", JNull)])
           (JDict [("3", JDict [])]) JNull (JDict [("number", JNum 1)]) JNull);
    try reflexivity.
  exists (JDict [("workflow", JDict [("3", JDict [])])]), JNull, JNull, JNull.
  repeat split.
Defined.

(** ** [wait_for_completion] in [handler] *)

(** The turn on an error event of the job raises the execution error, with
    the message of the event, or the default one when it has none. *)
Lemma watch_event_error (w : world) (prompt_id : json) (r : recv_outcome)
    (payload : list (string * json)) :
  carries_event w r (JStr "execution_error") payload ->
  py_eq (job_id payload) prompt_id = true ->
  watch_event w prompt_id r
  = Failed (py_str w (py_or (dict_get payload "exception_message" JNull)
                            (JStr "ComfyUI execution error"))).
Proof.
  intros (message & data & -> & Hl & Hty & Hp) Hid. unfold job_id in Hid.
  cbn [watch_event]. unfold on_message. rewrite Hl.
  unfold executing_done, execution_error. cbn [call bind get].
  rewrite Hty, Hp. cbn [bind get]. rewrite Hid.
  change (py_eq (JStr "execution_error") (JStr "executing")) with false.
  change (py_eq (JStr "execution_error") (JStr "execution_error")) with true.
  reflexivity.
Qed.

(** The loop ends at the first frame whose turn leaves [Waiting], with the
    state of that turn, one [recv] having been made per frame up to it. *)
Lemma watch_first_terminal (w : world) (prompt_id : json) (pre post : list recv_outcome)
    (r : recv_outcome) :
  fst (watch w prompt_id pre) = Waiting ->
  watch_event w prompt_id r <> Waiting ->
  watch w prompt_id (pre ++ r :: post) = (watch_event w prompt_id r, S (List.length pre)).
Proof.
  intros Hpre Hr. induction pre as [|x pre IH]; cbn [app watch List.length].
  - destruct (watch_event w prompt_id r); try reflexivity. contradiction.
  - cbn [watch] in Hpre. destruct (watch_event w prompt_id x); try discriminate Hpre.
    destruct (watch w prompt_id pre) as [st n]. cbn [fst] in Hpre.
    rewrite (IH Hpre). reflexivity.
Qed.

(** X12: the wait stops at the first frame that ends it: the frames behind
    it are not read, and do not change the outcome. *)
Theorem watch_stops_at_first_terminal (w : world) (prompt_id : json)
    (pre post : list recv_outcome) (r : recv_outcome) :
  fst (watch w prompt_id pre) = Waiting ->
  watch_event w prompt_id r <> Waiting ->
  watch w prompt_id (pre ++ r :: post) = (watch_event w prompt_id r, S (List.length pre))
  /\ watch w prompt_id (pre ++ r :: post) = watch w prompt_id (pre ++ [r]).
Proof.
  intros Hpre Hr. rewrite !(watch_first_terminal w prompt_id pre _ r Hpre Hr). split; reflexivity.
Qed.

Lemma watch_stops_at_first_terminal_witness :
  let w := sample_world None sample_frames temp_history in
  watch w (JStr "p1") (sample_frames ++ [RecvText "error p1"]) = (Completed, 5%nat)
  /\ watch w (JStr "p1") (sample_frames ++ [RecvText "error p1"]) = watch w (JStr "p1") sample_frames.
Proof.
  intros w.
  apply (watch_stops_at_first_terminal w (JStr "p1") (firstn 4 sample_frames)
           [RecvText "error p1"] (RecvText "executing p1 done"));
    [reflexivity | discriminate].
Defined.

(** X13: binary frames and receive timeouts never end the wait, and the
    outcome is the same without them. *)
Theorem watch_ignores_noise (w : world) (prompt_id : json) (frames : list recv_outcome) :
  Forall (fun r => watch_event w prompt_id r = Waiting) (filter is_noise frames)
  /\ fst (watch w prompt_id frames)
     = fst (watch w prompt_id (filter (fun r => negb (is_noise r)) frames)).
Proof.
  assert (Hnoise : forall r, is_noise r = true -> watch_event w prompt_id r = Waiting).
  { intros [m|b|[[] m]]; try discriminate; reflexivity. }
  split.
  - apply Forall_forall. intros r Hr. apply filter_In in Hr. now apply Hnoise.
  - induction frames as [|r rest IH]; [reflexivity|].
    cbn [filter]. destruct (is_noise r) eqn:En; cbn [negb].
    + cbn [watch]. rewrite (Hnoise r En).
      destruct (watch w prompt_id rest) as [st n]. exact IH.
    + cbn [watch]. destruct (watch_event w prompt_id r); try reflexivity.
      destruct (watch w prompt_id rest), (watch w prompt_id (filter _ rest)). exact IH.
Qed.

(** X14: an execution error of the watched job fails the job with the
    message of the event, or with "ComfyUI execution error" when the event
    has no message (or an empty or null one). *)
Theorem handler_execution_error (w : world) (job prompt_id : json)
    (pre post : list recv_outcome) (r : recv_outcome) (payload : list (string * json)) :
  job_queued w job prompt_id ->
  ws_connect w (ws_url_of w) = None ->
  ws_frames w = (pre ++ r :: post)%list ->
  fst (watch w prompt_id pre) = Waiting ->
  carries_event w r (JStr "execution_error") payload ->
  py_eq (job_id payload) prompt_id = true ->
  handler w job
  = Ok (error_value
          (py_str w (py_or (dict_get payload "exception_message" JNull)
                           (JStr "ComfyUI execution error")))).
Proof.
  intros Hq Hc Hf Hpre Hev Hid.
  rewrite (handler_of_queued_job w job prompt_id Hq).
  unfold wait_for_completion. fold (ws_url_of w). rewrite Hc, Hf.
  pose proof (watch_event_error w prompt_id r payload Hev Hid) as Hr.
  rewrite (watch_first_terminal w prompt_id pre post r Hpre) by (rewrite Hr; discriminate).
  rewrite Hr. reflexivity.
Qed.

Lemma handler_execution_error_witness :
  let w := sample_world None [RecvText "status"; RecvText "error p1"; RecvText "executing p1 done"]
             temp_history in
  handler w sample_job = Ok (error_value "boom").
Proof.
  intros w.
  apply (handler_execution_error w sample_job (JStr "p1") [RecvText "status"]
           [RecvText "executing p1 done"] (RecvText "error p1")
           [("prompt_id", JStr "p1"); ("exception_message", JStr "boom")]);
    try reflexivity.
  - apply sample_job_queued.
  - exists "error p1".
    exists [("type", JStr "execution_error");
            ("data", JDict [("prompt_id", JStr "p1"); ("exception_message", JStr "boom")])].
    repeat split.
Defined.

(** X15: an exception of the wait (a failed handshake, a [recv] that
    raises, a message that cannot be decoded) fails the job with the text
    of the exception. *)
Theorem handler_wait_failure (w : world) (job prompt_id : json) (e : exn) :
  job_queued w job prompt_id ->
  fst (wait_for_completion w prompt_id (uuid4 w)) = Raise e ->
  handler w job = Ok (error_value (exn_str e)).
Proof.
  intros Hq Hwait. rewrite (handler_of_queued_job w job prompt_id Hq), Hwait. reflexivity.
Qed.

Lemma handler_wait_failure_witness :
  handler (sample_world (Some connect_timeout) sample_frames temp_history) sample_job
  = Ok (error_value "timed out").
Proof.
  apply (handler_wait_failure _ sample_job (JStr "p1") connect_timeout);
    [apply sample_job_queued | reflexivity].
Defined.

(** X16: a text frame that is not JSON, or whose JSON is not an object, is
    not passed over: it ends the wait with the exception of the decoding,
    or with an [AttributeError]. *)
Theorem watch_malformed_frame (w : world) (prompt_id : json)
    (pre post : list recv_outcome) (message : string) :
  fst (watch w prompt_id pre) = Waiting ->
  (forall e, json_loads w message = inr e ->
     watch w prompt_id (pre ++ RecvText message :: post) = (Aborted e, S (List.length pre)))
  /\ (forall data, json_loads w message = inl data ->
        (forall d, data <> JDict d) ->
        watch w prompt_id (pre ++ RecvText message :: post)
        = (Aborted (no_attribute data "get"), S (List.length pre))).
Proof.
  intros Hpre. split.
  - intros e Hl.
    assert (Hr : watch_event w prompt_id (RecvText message) = Aborted e).
    { cbn [watch_event]. unfold on_message. rewrite Hl. reflexivity. }
    rewrite (watch_first_terminal w prompt_id pre post _ Hpre) by (rewrite Hr; discriminate).
    now rewrite Hr.
  - intros data Hl Hnd.
    assert (Hr : watch_event w prompt_id (RecvText message) = Aborted (no_attribute data "get")).
    { cbn [watch_event]. unfold on_message. rewrite Hl. cbn [call bind].
      destruct data; try reflexivity. exfalso. now apply (Hnd d). }
    rewrite (watch_first_terminal w prompt_id pre post _ Hpre) by (rewrite Hr; discriminate).
    now rewrite Hr.
Qed.

Lemma watch_malformed_frame_witness :
  let w := sample_world None sample_frames temp_history in
  watch w (JStr "p1") [RecvText "status"; RecvText "{type"; RecvText "executing p1 done"]
  = (Aborted (Exn JSONDecodeError "Expecting value: line 1 column 1 (char 0)"), 2%nat)
  /\ watch w (JStr "p1") [RecvText "status"; RecvText "[1, 2]"; RecvText "executing p1 done"]
     = (Aborted (Exn AttributeError "'list' object has no attribute 'get'"), 2%nat).
Proof.
  intros w. split.
  - apply (watch_malformed_frame w (JStr "p1") [RecvText "status"]
             [RecvText "executing p1 done"] "{type"); reflexivity.
  - apply (watch_malformed_frame w (JStr "p1") [RecvText "status"]
             [RecvText "executing p1 done"] "[1, 2]") with (data := JList [JNum 1; JNum 2]);
      [reflexivity | reflexivity | discriminate].
Defined.

(** X17: when no frame ends the wait, the wait never ends and [handler]
    never returns: there is no bound on the wait as a whole. *)
Theorem handler_waits_for_ever (w : world) (job prompt_id : json) :
  job_queued w job prompt_id ->
  ws_connect w (ws_url_of w) = None ->
  Forall (fun r => watch_event w prompt_id r = Waiting) (ws_frames w) ->
  handler w job = Hang.
Proof.
  intros Hq Hc Hall.
  rewrite (handler_of_queued_job w job prompt_id Hq).
  unfold wait_for_completion. fold (ws_url_of w). rewrite Hc.
  assert (Hw : fst (watch w prompt_id (ws_frames w)) = Waiting).
  { induction Hall as [|r rest Hr _ IH]; [reflexivity|].
    cbn [watch]. rewrite Hr. destruct (watch w prompt_id rest). exact IH. }
  destruct (watch w prompt_id (ws_frames w)) as [st n]. cbn [fst] in Hw. subst st.
  reflexivity.
Qed.

Lemma handler_waits_for_ever_witness :
  handler (sample_world None [RecvText "executing p2 done"; RecvBinary []] temp_history)
    sample_job
  = Hang.
Proof.
  apply (handler_waits_for_ever _ sample_job (JStr "p1"));
    [apply sample_job_queued | reflexivity |].
  repeat constructor.
Defined.

(** ** The collection of the outputs *)

Lemma for_each_invariant {A S} (P : S -> Prop) (body : S -> A -> result S) :
  (forall s x s', P s -> body s x = Ok s' -> P s') ->
  forall xs s s', P s -> for_each body xs s = Ok s' -> P s'.
Proof.
  intros Hbody xs. induction xs as [|x r IH]; intros s s' Hs; cbn [for_each].
  - intros H. injection H as <-. exact Hs.
  - destruct (body s x) as [s1| |] eqn:E; try discriminate.
    apply IH. now apply (Hbody s x).
Qed.

(** One turn of the loop over the images: an entry that is kept gets its
    record appended, any other entry leaves the bucket as it is. *)
Lemma collect_image_ok (w : world) (acc acc' : list json) (info : json) :
  collect_image w acc info = Ok acc' ->
  if image_kept info
  then exists record, record_of w info record /\ acc' = (acc ++ [record])%list
  else acc' = acc.
Proof.
  destruct info as [| | | | |d]; try discriminate.
  unfold collect_image, image_kept. cbn [get bind].
  destruct (py_eq (dict_get d "type" JNull) (JStr "temp")); cbn [negb andb].
  - intros H. now injection H.
  - destruct (truthy (dict_get d "filename" JNull)); cbn [negb].
    + intros H. apply bind_ok in H. destruct H as (data & Hf & H). injection H as <-.
      eexists. split; [|reflexivity]. exists d, data. auto.
    + intros H. now injection H.
Qed.

(** One turn of the loops over the videos and the gifs. *)
Lemma collect_video_ok (w : world) (acc acc' : list json) (info : json) :
  collect_video w acc info = Ok acc' ->
  if video_kept info
  then exists record, record_of w info record /\ acc' = (acc ++ [record])%list
  else acc' = acc.
Proof.
  destruct info as [| | | | |d]; try discriminate.
  unfold collect_video, video_kept. cbn [get bind].
  destruct (truthy (dict_get d "filename" JNull)); cbn [negb].
  - intros H. apply bind_ok in H. destruct H as (data & Hf & H). injection H as <-.
    eexists. split; [|reflexivity]. exists d, data. auto.
  - intros H. now injection H.
Qed.

(** A loop whose turns append the records of the entries kept appends, in
    the order of the entries, the records of the entries kept. *)
Lemma loop_records (w : world) (body : list json -> json -> result (list json))
    (kept : json -> bool) :
  (forall acc acc' info,
     body acc info = Ok acc' ->
     if kept info
     then exists record, record_of w info record /\ acc' = (acc ++ [record])%list
     else acc' = acc) ->
  forall infos acc acc',
    for_each body infos acc = Ok acc' ->
    exists records,
      acc' = (acc ++ records)%list
      /\ Forall2 (record_of w) (filter kept infos) records.
Proof.
  intros Hbody infos. induction infos as [|info rest IH]; intros acc acc'; cbn [for_each filter].
  - intros H. injection H as <-. exists []. split; [now rewrite app_nil_r | constructor].
  - destruct (body acc info) as [acc1| |] eqn:E; try discriminate.
    intros H. destruct (IH _ _ H) as (records & -> & Hrec).
    pose proof (Hbody _ _ _ E) as Hturn.
    destruct (kept info).
    + destruct Hturn as (record & Hr & ->). exists (record :: records).
      split; [now rewrite <- app_assoc | now constructor].
    + subst acc1. exists records. auto.
Qed.

(** X18: the loop over the images of a node keeps what was collected before
    and appends, in order, one record for each entry that is not
    transient and has a file name, with the bytes the server gives for
    it; the other entries leave no record. *)
Theorem images_loop_records (w : world) (infos acc acc' : list json) :
  for_each (collect_image w) infos acc = Ok acc' ->
  exists records,
    acc' = (acc ++ records)%list
    /\ Forall2 (record_of w) (filter image_kept infos) records.
Proof. apply loop_records. apply collect_image_ok. Qed.

Lemma images_loop_records_witness :
  let w := sample_world None sample_frames two_images_history in
  let infos := [JDict [("filename", JStr "a.png"); ("type", JStr "output")];
                JDict [("filename", JStr "preview.png"); ("type", JStr "temp")];
                JDict [("filename", JNull); ("type", JStr "output")];
                JDict [("filename", JStr "b.png"); ("type", JStr "output")]] in
  let acc' := [output_record (JStr "a.png") (list_byte_of_string "hello");
               output_record (JStr "b.png") (list_byte_of_string "hello")] in
  for_each (collect_image w) infos [] = Ok acc'
  /\ exists records,
       acc' = ([] ++ records)%list
       /\ Forall2 (record_of w) (filter image_kept infos) records.
Proof.
  intros w infos acc'. split; [reflexivity|].
  apply (images_loop_records w infos [] acc'). reflexivity.
Defined.

(** X19: the loops over the videos and over the gifs of a node append, in
    order, one record for each entry that has a file name, whatever its
    type. *)
Theorem videos_loop_records (w : world) (infos acc acc' : list json) :
  (for_each (collect_video w) infos acc = Ok acc' ->
     exists records,
       acc' = (acc ++ records)%list
       /\ Forall2 (record_of w) (filter video_kept infos) records)
  /\ (for_each (collect_gif w) infos acc = Ok acc' ->
        exists records,
          acc' = (acc ++ records)%list
          /\ Forall2 (record_of w) (filter video_kept infos) records).
Proof. split; apply loop_records; apply collect_video_ok. Qed.

Lemma videos_loop_records_witness :
  let w := sample_world None sample_frames two_images_history in
  let infos := [JDict [("filename", JStr "clip.mp4"); ("type", JStr "temp")];
                JDict [("type", JStr "output")]] in
  let acc' := [output_record (JStr "clip.mp4") (list_byte_of_string "hello")] in
  for_each (collect_video w) infos [] = Ok acc'
  /\ exists records,
       acc' = ([] ++ records)%list
       /\ Forall2 (record_of w) (filter video_kept infos) records.
Proof.
  intros w infos acc'. split; [reflexivity|].
  apply (videos_loop_records w infos [] acc'). reflexivity.
Defined.

(** X20: when the collection raises (a file the server does not give, an
    entry that is not an object), the job fails with the text of the
    exception: the records collected before are not returned. *)
Theorem handler_collection_failure (w : world) (job outputs : json) (e : exn) :
  job_completes w job outputs ->
  collect_outputs w outputs = Raise e ->
  handler w job = Ok (error_value (exn_str e)).
Proof.
  intros Hjob He. rewrite (handler_of_completed_job w job outputs Hjob), He. reflexivity.
Qed.

Lemma handler_collection_failure_witness :
  let w := with_view (sample_world None sample_frames two_images_history)
             (fun filename _ _ =>
                if py_eq filename (JStr "b.png") then Answered not_found
                else Answered (ok_response JNull (list_byte_of_string "hello"))) in
  handler w sample_job
  = Ok (error_value "404 Client Error: Not Found for url: http://127.0.0.1:8188/view").
Proof.
  intros w.
  apply (handler_collection_failure w sample_job
           (JDict [("7", JDict [("images",
                                 JList [JDict [("filename", JStr "a.png");
                                               ("type", JStr "output")];
                                        JDict [("filename", JStr "preview.png");
                                               ("type", JStr "temp")];
                                        JDict [("filename", JStr "b.png");
                                               ("type", JStr "output")]]);
                                ("videos", JList [JDict [("type", JStr "output")]])])])
           (Exn RequestException
              "404 Client Error: Not Found for url: http://127.0.0.1:8188/view"));
    [|reflexivity].
  exists (JStr "p1"), two_images_history.
  eexists. split; [|split; reflexivity].
  exists (JDict [("workflow", JDict [("3", JDict [])])]).
  exists (JDict [("workflow", JDict [("3", JDict [])]); ("images", JNull);
                 ("comfy_org_api_key", JNull)]).
  exists JNull, JNull, JNull, (JDict [("3", JDict [])]), JNull.
  exists (JDict [("prompt_id", JStr "p1")]).
  repeat split.
Defined.

(** ** What [handler] returns *)

Lemma validate_input_error_text (w : world) (job_input validated error : json) :
  validate_input w job_input = Ok (validated, error) ->
  truthy error = true ->
  exists msg, error = JStr msg.
Proof.
  unfold validate_input, get, bind.
  repeat break_match; intros H; try discriminate H; injection H as <- <-;
    intros Ht; try discriminate Ht; eauto.
Qed.

Lemma upload_images_error_text (w : world) (imgs r : json) :
  upload_images w imgs = Ok r -> truthy r = true -> exists msg, r = JStr msg.
Proof.
  assert (Hloop : forall l, upload_images_loop w l = Ok r ->
                            truthy r = true -> exists msg, r = JStr msg).
  { induction l as [|image rest IH]; cbn [upload_images_loop].
    - intros H. injection H as <-. discriminate.
    - destruct (upload_image w image) as [[error|]| |]; cbn [bind]; try discriminate.
      + intros H. injection H as <-. eauto.
      + exact IH. }
  unfold upload_images. destruct (negb (truthy imgs)).
  - intros H. injection H as <-. discriminate.
  - destruct (iter imgs) as [l| |]; cbn [bind]; try discriminate. apply Hloop.
Qed.

Lemma collect_node_records (w : world) (b b' : buckets) (node_output : json) :
  collect_node w b node_output = Ok b' ->
  Forall is_output_record (images b) /\ Forall is_output_record (videos b)
  /\ Forall is_output_record (gifs b) ->
  Forall is_output_record (images b') /\ Forall is_output_record (videos b')
  /\ Forall is_output_record (gifs b').
Proof.
  assert (Hrec : forall info record, record_of w info record -> is_output_record record).
  { intros info record (d & data & _ & _ & ->). eexists _, _. reflexivity. }
  assert (Hext : forall acc records infos,
             Forall is_output_record acc ->
             Forall2 (record_of w) infos records ->
             Forall is_output_record (acc ++ records)).
  { intros acc records infos Hacc H2. apply Forall_app. split; [exact Hacc|].
    induction H2; constructor; eauto. }
  unfold collect_node. intros H (Hi & Hv & Hg).
  repeat (apply bind_ok in H; destruct H as (? & ? & H)).
  injection H as <-. cbn [images videos gifs].
  repeat match goal with
         | E : for_each (collect_image w) _ _ = Ok _ |- _ =>
             apply (loop_records w _ _ (collect_image_ok w)) in E;
             destruct E as (? & -> & ?)
         | E : for_each (collect_video w) _ _ = Ok _ |- _ =>
             apply (loop_records w _ _ (collect_video_ok w)) in E;
             destruct E as (? & -> & ?)
         | E : for_each (collect_gif w) _ _ = Ok _ |- _ =>
             apply (loop_records w _ _ (collect_video_ok w)) in E;
             destruct E as (? & -> & ?)
         end.
  repeat split; eapply Hext; eauto.
Qed.

(** X21: whatever the job and the server, a value [handler] returns is an
    error with its text, or what the buckets give: the no-outputs value
    or an object of the non-empty buckets, each a list of records with a
    file name, the type "base64" and the data. *)
Theorem handler_result_well_formed (w : world) (job v : json) :
  handler w job = Ok v -> well_formed_result v.
Proof.
  unfold handler. intros H.
  apply bind_ok in H. destruct H as (job_input & _ & H).
  apply bind_ok in H. destruct H as ([validated error] & Hv & H).
  destruct (truthy error) eqn:Et.
  { injection H as <-. destruct (validate_input_error_text _ _ _ _ Hv Et) as [msg ->].
    left. now exists msg. }
  destruct (check_server w); cbn [negb] in H;
    [|injection H as <-; left; eexists; reflexivity].
  apply bind_ok in H. destruct H as (imgs & _ & H).
  apply bind_ok in H. destruct H as (upload_error & Hu & H).
  destruct (truthy upload_error) eqn:Eu.
  { injection H as <-. destruct (upload_images_error_text _ _ _ Hu Eu) as [msg ->].
    left. now exists msg. }
  destruct (handler_try w validated (uuid4 w)) as [v'|e|] eqn:Etry; cbn [try_except] in H;
    try discriminate; injection H as <-; [|left; eexists; reflexivity].
  unfold handler_try in Etry.
  repeat (apply bind_ok in Etry; destruct Etry as (? & ? & Etry)).
  destruct (negb (truthy _)); [injection Etry as <-; left; eexists; reflexivity|].
  repeat (apply bind_ok in Etry; destruct Etry as (? & ? & Etry)).
  injection Etry as <-. right.
  match goal with
  | E : collect_outputs w _ = Ok ?b |- _ => exists b; split; [reflexivity|]; revert E
  end.
  unfold collect_outputs. intros E. apply bind_ok in E. destruct E as (nodes & _ & E).
  apply (for_each_invariant
           (fun b => Forall is_output_record (images b) /\ Forall is_output_record (videos b)
                     /\ Forall is_output_record (gifs b))
           (collect_node w)) in E; [exact E | | repeat split; constructor].
  intros b0 node b1 Hb0 Hnode. exact (collect_node_records w b0 b1 node Hnode Hb0).
Qed.

Lemma handler_result_well_formed_witness :
  let w := sample_world None sample_frames two_images_history in
  let v := JDict [("images",
                   JList [output_record (JStr "a.png") (list_byte_of_string "hello");
                          output_record (JStr "b.png") (list_byte_of_string "hello")])] in
  handler w sample_job = Ok v /\ well_formed_result v.
Proof.
  intros w v. split; [reflexivity|].
  apply (handler_result_well_formed w sample_job v). reflexivity.
Defined.

Lemma handler_raises_only_from_upload_witness :
  let w := sample_world None sample_frames two_images_history in
  let images := JList [JDict [("name", JNum 5); ("image", JStr "aGVsbG8=")]] in
  let job := JDict [("input", JDict [("workflow", JDict []); ("images", images)])] in
  handler w job = Raise (Exn AttributeError "'int' object has no attribute 'translate'")
  /\ upload_raised w images (Exn AttributeError "'int' object has no attribute 'translate'").
Proof.
  intros w images job. split; [reflexivity|].
  apply (handler_raises_only_from_upload w job [("workflow", JDict []); ("images", images)]);
    reflexivity.
Defined.

Lemma upload_images_result (w : world) (imgs r : json) :
  upload_images w imgs = Ok r -> r = JNull \/ exists msg, r = JStr msg.
Proof.
  assert (Hloop : forall l, upload_images_loop w l = Ok r ->
                            r = JNull \/ exists msg, r = JStr msg).
  { induction l as [|image rest IH]; cbn [upload_images_loop].
    - intros H. injection H as <-. now left.
    - destruct (upload_image w image) as [[error|]| |]; cbn [bind]; try discriminate.
      + intros H. injection H as <-. right. now exists error.
      + exact IH. }
  unfold upload_images. destruct (negb (truthy imgs)).
  - intros H. injection H as <-. now left.
  - destruct (iter imgs) as [l| |]; cbn [bind]; try discriminate. apply Hloop.
Qed.

(** X22: the images of a validated request reach [upload_images]
    unchanged, and it reads from them only the keys validation has
    checked: it returns [None] or an error text, or passes on an
    exception that [requests.post] raises for the name of one of them. *)
Theorem validated_images_upload (w : world) (d : list (string * json))
    (validated error : json) :
  validate_input w (JDict d) = Ok (validated, error) ->
  truthy error = false ->
  let imgs := dict_get d "images" JNull in
  get validated "images" JNull = Ok imgs
  /\ ((exists r, upload_images w imgs = Ok r /\ (r = JNull \/ exists msg, r = JStr msg))
      \/ (exists e, upload_images w imgs = Raise e /\ upload_raised w imgs e)).
Proof.
  intros Hv Ht imgs.
  destruct (validate_input_object w d) as (v' & e' & Hv' & Hshape).
  rewrite Hv in Hv'. injection Hv' as <- <-.
  destruct Hshape as [Hbad | (workflow & key & -> & Himgs)]; [congruence|].
  split; [reflexivity|].
  destruct (upload_images_outcome w _ Himgs) as [[r Hr] | Hraise]; [left | right; exact Hraise].
  exists r. split; [exact Hr | exact (upload_images_result w _ r Hr)].
Qed.

Lemma validated_images_upload_witness :
  let w := sample_world None sample_frames temp_history in
  let good := JList [JDict [("name", JStr "a.png"); ("image", JStr "aGVsbG8=")]] in
  let bad := JList [JDict [("name", JNum 5); ("image", JStr "aGVsbG8=")]] in
  (upload_images w good = Ok JNull
   /\ ((exists r, upload_images w good = Ok r /\ (r = JNull \/ exists msg, r = JStr msg))
       \/ (exists e, upload_images w good = Raise e /\ upload_raised w good e)))
  /\ (upload_images w bad = Raise (Exn AttributeError "'int' object has no attribute 'translate'")
      /\ ((exists r, upload_images w bad = Ok r /\ (r = JNull \/ exists msg, r = JStr msg))
          \/ (exists e, upload_images w bad = Raise e /\ upload_raised w bad e))).
Proof.
  intros w good bad. split; (split; [reflexivity|]).
  - apply (validated_images_upload w [("workflow", JNum 1); ("images", good)]
             (JDict [("workflow", JNum 1); ("images", good); ("comfy_org_api_key", JNull)])
             JNull); reflexivity.
  - apply (validated_images_upload w [("workflow", JNum 1); ("images", bad)]
             (JDict [("workflow", JNum 1); ("images", bad); ("comfy_org_api_key", JNull)])
             JNull); reflexivity.
Defined.
